(** * Personal finance bookkeeping: accounts, transactions, budget manager

    A shallow embedding of [personal_finance_design.py].  Python objects are
    mutable, methods raise exceptions and [BudgetManager.add_expense] prints
    to the console; all three effects are made explicit by one small monad
    [Py S A]: a computation over a mutable state [S] that yields the final
    state, the lines printed, and either a returned value or the exception
    raised.  An exception keeps every mutation performed before it was
    raised, as in Python.

    Amounts, balances and limits are Python integers, modelled by [Z]. *)

From stdpp Require Import gmap strings list.
From Stdlib Require Import ZArith Lia.

Open Scope Z_scope.

(** ** Exceptions and the effect monad *)

(** Every error of the program is a [ValueError] told apart by its message.
    [KeyError] is what a failed dictionary subscript raises, and
    [AttributeError] what a method call raises on a reference that does not
    denote an account object. *)
Inductive exn : Type :=
| ValueError (msg : string)
| KeyError (key : string)
| AttributeError.

Inductive result (A : Type) : Type :=
| Return (a : A)
| Raise (e : exn).
Arguments Return {A} a.
Arguments Raise {A} e.

Definition Py (S A : Type) : Type := S -> S * list string * result A.

#[export] Instance Py_ret {S} : MRet (Py S) :=
  fun A a s => (s, [], Return a).

#[export] Instance Py_bind {S} : MBind (Py S) :=
  fun A B k m s =>
    match m s with
    | (s1, o1, Return a) => let '(s2, o2, r) := k a s1 in (s2, o1 ++ o2, r)
    | (s1, o1, Raise e) => (s1, o1, Raise e)
    end.

Definition raise {S A} (e : exn) : Py S A := fun s => (s, [], Raise e).
Definition get {S} : Py S S := fun s => (s, [], Return s).
Definition put {S} (s : S) : Py S unit := fun _ => (s, [], Return tt).
Definition print {S} (line : string) : Py S unit := fun s => (s, [line], Return tt).

(** Run a computation on a part [T] of the state [S]. *)
Definition zoom {S T A} (proj : S -> T) (upd : T -> S -> S) (m : Py T A) : Py S A :=
  fun s => let '(t, o, r) := m (proj s) in (upd t s, o, r).

(** Projections of an outcome. *)
Definition state_of {S A} (x : S * list string * result A) : S := x.1.1.
Definition output_of {S A} (x : S * list string * result A) : list string := x.1.2.
Definition result_of {S A} (x : S * list string * result A) : result A := x.2.

(** The error kinds of the design, by the message the code raises. *)
Definition InvalidAmount : exn := ValueError "Amount must be positive".
Definition InsufficientBalance : exn := ValueError "Insufficient balance".
Definition MinimumBalanceViolation : exn := ValueError "Minimum balance rule violated".
Definition MonthlyLimitExceeded : exn := ValueError "Monthly limit exceeded".
Definition UnknownCategory : exn := ValueError "Category not found".

(** ** Transactions (data)

    A transaction holds references to the accounts it affects; accounts live
    in a store and are shared, so the references are store addresses. *)
Abbreviation ref := nat.

Inductive transaction : Type :=
| IncomeTransaction (account : ref) (amount : Z)
| ExpenseTransaction (account : ref) (amount : Z)
| TransferTransaction (from_account to_account : ref) (amount : Z).

(** ** Account classes *)

Record Account : Type := {
  _account_id : Z;
  _balance : Z;
  __account_password : string;
  account_holder : string;
  _transactions : list transaction
}.

Definition Account_init (account_id balance : Z) (account_password holder : string)
  : Account :=
  {| _account_id := account_id; _balance := balance;
     __account_password := account_password; account_holder := holder;
     _transactions := [] |}.

Definition set_balance (b : Z) (self : Account) : Account :=
  {| _account_id := _account_id self; _balance := b;
     __account_password := __account_password self;
     account_holder := account_holder self;
     _transactions := _transactions self |}.

Definition set_transactions (l : list transaction) (self : Account) : Account :=
  {| _account_id := _account_id self; _balance := _balance self;
     __account_password := __account_password self;
     account_holder := account_holder self;
     _transactions := l |}.

Definition set_account_password (p : string) (self : Account) : Account :=
  {| _account_id := _account_id self; _balance := _balance self;
     __account_password := p;
     account_holder := account_holder self;
     _transactions := _transactions self |}.

Definition Account_deposit (amount : Z) : Py Account unit :=
  self ← get;
  if amount <=? 0 then raise (ValueError "Amount must be positive")
  else put (set_balance (_balance self + amount) self).

Definition Account_withdraw (amount : Z) : Py Account unit :=
  self ← get;
  if amount <=? 0 then raise (ValueError "Amount must be positive")
  else if amount >? _balance self then raise (ValueError "Insufficient balance")
  else put (set_balance (_balance self - amount) self).

Definition Account_get_balance : Py Account Z :=
  self ← get; mret (_balance self).

Definition Account_add_transaction (t : transaction) : Py Account unit :=
  self ← get; put (set_transactions (_transactions self ++ [t]) self).

Definition Account_get_transactions : Py Account (list transaction) :=
  self ← get; mret (_transactions self).

Definition Account_set_password (new_password : string) : Py Account unit :=
  self ← get; put (set_account_password new_password self).

Definition Account_check_password (password : string) : Py Account bool :=
  self ← get; mret (bool_decide (__account_password self = password)).

(** [SavingAccount] and [ExpensesAccount] extend [Account] with fields of
    their own; [super_saving] and [super_expenses] run a method of the base
    class on the same object. *)
Record SavingAccount : Type := {
  saving_base : Account;
  min_balance : Z
}.

Definition SavingAccount_init (account_id balance : Z) (account_password holder : string)
    (min_balance : Z) : SavingAccount :=
  {| saving_base := Account_init account_id balance account_password holder;
     min_balance := min_balance |}.

Definition super_saving {A} (m : Py Account A) : Py SavingAccount A :=
  zoom saving_base
       (fun a self => {| saving_base := a; min_balance := min_balance self |}) m.

Definition SavingAccount_withdraw (amount : Z) : Py SavingAccount unit :=
  self ← get;
  if _balance (saving_base self) - amount <? min_balance self
  then raise (ValueError "Minimum balance rule violated")
  else super_saving (Account_withdraw amount).

Record ExpensesAccount : Type := {
  expenses_base : Account;
  month_limit : Z;
  monthly_withdraw : Z
}.

Definition ExpensesAccount_init (account_id balance : Z) (account_password holder : string)
    (month_limit : Z) : ExpensesAccount :=
  {| expenses_base := Account_init account_id balance account_password holder;
     month_limit := month_limit;
     monthly_withdraw := 0 |}.

Definition super_expenses {A} (m : Py Account A) : Py ExpensesAccount A :=
  zoom expenses_base
       (fun a self => {| expenses_base := a; month_limit := month_limit self;
                         monthly_withdraw := monthly_withdraw self |}) m.

Definition set_monthly_withdraw (w : Z) (self : ExpensesAccount) : ExpensesAccount :=
  {| expenses_base := expenses_base self; month_limit := month_limit self;
     monthly_withdraw := w |}.

Definition ExpensesAccount_withdraw (amount : Z) : Py ExpensesAccount unit :=
  self ← get;
  if monthly_withdraw self + amount >? month_limit self
  then raise (ValueError "Monthly limit exceeded")
  else
    super_expenses (Account_withdraw amount);;
    self ← get;
    put (set_monthly_withdraw (monthly_withdraw self + amount) self).

(** An account object of any of the three classes, and method dispatch on
    its class. *)
Inductive account : Type :=
| a_base (a : Account)
| a_saving (s : SavingAccount)
| a_expenses (e : ExpensesAccount).

Definition base (o : account) : Account :=
  match o with
  | a_base a => a
  | a_saving s => saving_base s
  | a_expenses e => expenses_base e
  end.

Definition with_base (a : Account) (o : account) : account :=
  match o with
  | a_base _ => a_base a
  | a_saving s => a_saving {| saving_base := a; min_balance := min_balance s |}
  | a_expenses e =>
      a_expenses {| expenses_base := a; month_limit := month_limit e;
                    monthly_withdraw := monthly_withdraw e |}
  end.

(** A method the subclasses inherit unchanged. *)
Definition inherited {A} (m : Py Account A) : Py account A := zoom base with_base m.

Definition as_class {T A} (inj : T -> account) (m : Py T A) (t : T)
  : account * list string * result A :=
  let '(t', o, r) := m t in (inj t', o, r).

Definition deposit (amount : Z) : Py account unit := inherited (Account_deposit amount).

Definition withdraw (amount : Z) : Py account unit :=
  fun o =>
    match o with
    | a_base a => as_class a_base (Account_withdraw amount) a
    | a_saving s => as_class a_saving (SavingAccount_withdraw amount) s
    | a_expenses e => as_class a_expenses (ExpensesAccount_withdraw amount) e
    end.

Definition get_balance : Py account Z := inherited Account_get_balance.

Definition add_transaction (t : transaction) : Py account unit :=
  inherited (Account_add_transaction t).

Definition get_transactions : Py account (list transaction) :=
  inherited Account_get_transactions.

(** The precondition of its own that a subclass's [withdraw] tests before
    it delegates to the base class: [true] when that test rejects the
    amount. *)
Definition violates_subclass_rule (amount : Z) (o : account) : bool :=
  match o with
  | a_base _ => false
  | a_saving s => _balance (saving_base s) - amount <? min_balance s
  | a_expenses e => monthly_withdraw e + amount >? month_limit e
  end.

Definition subclass_error (o : account) : exn :=
  match o with
  | a_base _ => InvalidAmount
  | a_saving _ => MinimumBalanceViolation
  | a_expenses _ => MonthlyLimitExceeded
  end.

(** Balance and history of an account object, read off the state. *)
Definition balance (o : account) : Z := _balance (base o).
Definition history (o : account) : list transaction := _transactions (base o).

Definition set_password (new_password : string) : Py account unit :=
  inherited (Account_set_password new_password).

Definition check_password (password : string) : Py account bool :=
  inherited (Account_check_password password).

(** A caller's sequence of money operations on one account object; an
    exception is caught by the caller, who goes on with the next call. *)
Inductive account_call : Type :=
| call_deposit (amount : Z)
| call_withdraw (amount : Z)
| call_add_transaction (t : transaction).

Definition perform_on (c : account_call) : Py account unit :=
  match c with
  | call_deposit amount => deposit amount
  | call_withdraw amount => withdraw amount
  | call_add_transaction t => add_transaction t
  end.

Definition after_calls_on (calls : list account_call) (o : account) : account :=
  fold_left (fun x c => state_of (perform_on c x)) calls o.

(** What the rules of the three classes are about: the class of an object
    and the parameters of its rule never change and the counter of an
    ExpensesAccount never goes down ([same_policy]); a SavingAccount is at or
    above its floor ([above_floor]); the counter of an ExpensesAccount is
    within its cap ([within_cap]). *)
Definition same_policy (o o' : account) : Prop :=
  match o, o' with
  | a_base _, a_base _ => True
  | a_saving s, a_saving s' => min_balance s' = min_balance s
  | a_expenses e, a_expenses e' =>
      month_limit e' = month_limit e /\ monthly_withdraw e <= monthly_withdraw e'
  | _, _ => False
  end.

Definition above_floor (o : account) : Prop :=
  match o with
  | a_saving s => min_balance s <= _balance (saving_base s)
  | _ => True
  end.

Definition within_cap (o : account) : Prop :=
  match o with
  | a_expenses e => monthly_withdraw e <= month_limit e
  | _ => True
  end.

(** The fields no money operation writes. *)
Definition same_identity (o o' : account) : Prop :=
  _account_id (base o') = _account_id (base o)
  /\ account_holder (base o') = account_holder (base o)
  /\ __account_password (base o') = __account_password (base o).

(** What every money operation keeps, whatever its outcome. *)
Definition evolves (o o' : account) : Prop :=
  same_policy o o'
  /\ same_identity o o'
  /\ (0 <= balance o -> 0 <= balance o')
  /\ (above_floor o -> above_floor o')
  /\ (within_cap o -> within_cap o').

(** The transactions a sequence of calls records, in order. *)
Definition records_of (calls : list account_call) : list transaction :=
  omap (fun c => match c with call_add_transaction t => Some t | _ => None end) calls.

(** The static helpers [calculate_tax], [format_currency] and
    [calculate_savings_rate] compute on floating point and take no part in
    the account rules; they are left out. *)

(** ** The object store and transaction processing *)

Abbreviation store := (gmap ref account).

(** Call a method on the object a reference denotes; the object is updated
    in place. *)
Definition on {A} (r : ref) (m : Py account A) : Py store A :=
  fun h =>
    match h !! r with
    | Some o => let '(o', out, res) := m o in (<[r := o']> h, out, res)
    | None => (h, [], Raise AttributeError)
    end.

Definition IncomeTransaction_validate (amount : Z) : Py store unit :=
  if amount <=? 0 then raise (ValueError "Amount must be positive") else mret tt.

Definition IncomeTransaction_process_transaction (account : ref) (amount : Z)
  : Py store unit :=
  let self := IncomeTransaction account amount in
  IncomeTransaction_validate amount;;
  on account (deposit amount);;
  on account (add_transaction self).

Definition ExpenseTransaction_validate (amount : Z) : Py store unit :=
  if amount <=? 0 then raise (ValueError "Amount must be positive") else mret tt.

Definition ExpenseTransaction_process_transaction (account : ref) (amount : Z)
  : Py store unit :=
  let self := ExpenseTransaction account amount in
  ExpenseTransaction_validate amount;;
  on account (withdraw amount);;
  on account (add_transaction self).

Definition TransferTransaction_validate (amount : Z) : Py store unit :=
  if amount <=? 0 then raise (ValueError "Amount must be positive") else mret tt.

Definition TransferTransaction_process_transaction
    (from_account to_account : ref) (amount : Z) : Py store unit :=
  let self := TransferTransaction from_account to_account amount in
  TransferTransaction_validate amount;;
  on from_account (withdraw amount);;
  on to_account (deposit amount);;
  on from_account (add_transaction self);;
  on to_account (add_transaction self).

Definition validate (t : transaction) : Py store unit :=
  match t with
  | IncomeTransaction _ amount => IncomeTransaction_validate amount
  | ExpenseTransaction _ amount => ExpenseTransaction_validate amount
  | TransferTransaction _ _ amount => TransferTransaction_validate amount
  end.

Definition process_transaction (t : transaction) : Py store unit :=
  match t with
  | IncomeTransaction account amount =>
      IncomeTransaction_process_transaction account amount
  | ExpenseTransaction account amount =>
      ExpenseTransaction_process_transaction account amount
  | TransferTransaction from_account to_account amount =>
      TransferTransaction_process_transaction from_account to_account amount
  end.

(** Balance and history of the account at a reference. *)
Definition balance_at (h : store) (r : ref) : option Z := balance <$> h !! r.
Definition history_at (h : store) (r : ref) : option (list transaction) :=
  history <$> h !! r.

(** The accounts a transaction refers to, and its amount. *)
Definition accounts_of (t : transaction) : list ref :=
  match t with
  | IncomeTransaction account _ => [account]
  | ExpenseTransaction account _ => [account]
  | TransferTransaction from_account to_account _ => [from_account; to_account]
  end.

Definition amount_of (t : transaction) : Z :=
  match t with
  | IncomeTransaction _ amount => amount
  | ExpenseTransaction _ amount => amount
  | TransferTransaction _ _ amount => amount
  end.

(** A caller processing a list of transactions in order, going on after an
    exception as the call site decides. *)
Definition process_all (ts : list transaction) (h : store) : store :=
  fold_left (fun s t => state_of (process_transaction t s)) ts h.

(** Two stores hold objects at the same references, related pointwise. *)
Definition store_rel (Q : ref -> account -> account -> Prop) (h h' : store) : Prop :=
  forall r, option_Forall2 (Q r) (h !! r) (h' !! r).

(** ** Budget manager *)

Record BudgetManager : Type := {
  _category_limits : gmap string Z;
  _spending : gmap string Z
}.

Definition BudgetManager_init : BudgetManager :=
  {| _category_limits := ∅; _spending := ∅ |}.

(** [key in d] and [d[key]] on a dictionary. *)
Definition contains (d : gmap string Z) (key : string) : bool :=
  if d !! key is Some _ then true else false.

Definition getitem {S} (d : gmap string Z) (key : string) : Py S Z :=
  match d !! key with
  | Some v => mret v
  | None => raise (KeyError key)
  end.

Definition set_category_limits (d : gmap string Z) (self : BudgetManager) : BudgetManager :=
  {| _category_limits := d; _spending := _spending self |}.

Definition set_spending (d : gmap string Z) (self : BudgetManager) : BudgetManager :=
  {| _category_limits := _category_limits self; _spending := d |}.

Definition set_budget_limit (category : string) (limit : Z) : Py BudgetManager unit :=
  self ← get;
  put (set_category_limits (<[category := limit]> (_category_limits self)) self);;
  self ← get;
  put (set_spending (<[category := 0]> (_spending self)) self).

Definition warning (category : string) : string :=
  "⚠️ Warning: " +:+ category +:+ " budget exceeded!".

Definition add_expense (category : string) (amount : Z) : Py BudgetManager unit :=
  self ← get;
  if negb (contains (_spending self) category)
  then raise (ValueError "Category not found")
  else
    spent ← getitem (_spending self) category;
    put (set_spending (<[category := spent + amount]> (_spending self)) self);;
    self ← get;
    spent ← getitem (_spending self) category;
    limit ← getitem (_category_limits self) category;
    if spent >? limit then print (warning category) else mret tt.

Definition get_budget_status : Py BudgetManager (gmap string Z) :=
  self ← get; mret (_spending self).

(** A caller's sequence of budget operations.  Each call site decides what
    to do with an exception; here the caller goes on with the next call. *)
Inductive call : Type :=
| call_set_budget_limit (category : string) (limit : Z)
| call_add_expense (category : string) (amount : Z).

Definition perform (c : call) : Py BudgetManager unit :=
  match c with
  | call_set_budget_limit category limit => set_budget_limit category limit
  | call_add_expense category amount => add_expense category amount
  end.

Definition after (calls : list call) (bm : BudgetManager) : BudgetManager :=
  fold_left (fun b c => state_of (perform c b)) calls bm.

(** The states a manager can be in: those some sequence of calls produces
    from a freshly constructed one. *)
Definition reachable (bm : BudgetManager) : Prop :=
  exists calls, bm = after calls BudgetManager_init.

(** The two dictionaries have the same keys. *)
Definition same_keys (bm : BudgetManager) : Prop :=
  dom (_spending bm) = dom (_category_limits bm).

(** [category] was given a limit by some call of the sequence. *)
Definition sets_limit_of (category : string) (c : call) : bool :=
  match c with
  | call_set_budget_limit category' _ => bool_decide (category' = category)
  | call_add_expense _ _ => false
  end.

Definition limit_was_set (category : string) (calls : list call) : bool :=
  existsb (sets_limit_of category) calls.

(** No call of the sequence adds a negative amount to [category]. *)
Definition adds_no_negative (category : string) (c : call) : bool :=
  match c with
  | call_set_budget_limit _ _ => true
  | call_add_expense category' amount =>
      if bool_decide (category' = category) then 0 <=? amount else true
  end.

Definition no_negative_expense (category : string) (calls : list call) : bool :=
  forallb (adds_no_negative category) calls.

(** Reference values for the two dictionaries after a sequence of calls:
    the sum of the amounts added to a category since its limit was last
    set, and the limit last set for it. *)
Definition sum_since_last_limit (category : string) (calls : list call) : Z :=
  fold_left
    (fun acc c =>
       match c with
       | call_set_budget_limit category' _ =>
           if bool_decide (category' = category) then 0 else acc
       | call_add_expense category' amount =>
           if bool_decide (category' = category) then acc + amount else acc
       end) calls 0.

Definition last_limit (category : string) (calls : list call) : option Z :=
  fold_left
    (fun acc c =>
       match c with
       | call_set_budget_limit category' limit =>
           if bool_decide (category' = category) then Some limit else acc
       | call_add_expense _ _ => acc
       end) calls None.

(** The spend counter of a category. *)
Definition spent (bm : BudgetManager) (category : string) : option Z :=
  _spending bm !! category.

(** ** The usage scenario of the main program *)

Definition acc1 : ref := 1%nat.
Definition acc2 : ref := 2%nat.

Definition main_store : store :=
  <[acc2 := a_expenses (ExpensesAccount_init 2 3000 "pass2" "Esther" 2000)]>
    (<[acc1 := a_saving (SavingAccount_init 1 5000 "pass1" "Ane" 1000)]> ∅).

Definition main_transactions : Py store unit :=
  process_transaction (IncomeTransaction acc1 2000);;
  process_transaction (ExpenseTransaction acc1 500);;
  process_transaction (TransferTransaction acc1 acc2 1000).

Definition main_budget : Py BudgetManager unit :=
  set_budget_limit "Food" 2000;;
  set_budget_limit "Travel" 1500;;
  add_expense "Food" 1200;;
  add_expense "Food" 900.

Example main_balances :
  balance_at (state_of (main_transactions main_store)) acc1 = Some 5500
  /\ balance_at (state_of (main_transactions main_store)) acc2 = Some 4000
  /\ result_of (main_transactions main_store) = Return tt.
Proof. vm_compute. auto. Qed.

Example main_budget_status :
  spent (state_of (main_budget BudgetManager_init)) "Food" = Some 2100
  /\ spent (state_of (main_budget BudgetManager_init)) "Travel" = Some 0
  /\ output_of (main_budget BudgetManager_init) = [warning "Food"]
  /\ result_of (main_budget BudgetManager_init) = Return tt.
Proof. vm_compute. auto. Qed.

(** ** Reasoning about [Py] computations *)

Lemma bind_Return {S A B} (m : Py S A) (k : A -> Py S B) s s' o b :
  (m ≫= k) s = (s', o, Return b) ->
  exists a s1 o1 o2,
    m s = (s1, o1, Return a) /\ k a s1 = (s', o2, Return b) /\ o = o1 ++ o2.
Proof.
  unfold mbind, Py_bind. destruct (m s) as [[s1 o1] [a|e]]; [|discriminate].
  destruct (k a s1) as [[s2 o2] r] eqn:Hk. intros [= -> <- ->].
  exists a, s1, o1, o2. auto.
Qed.

Lemma bind_Raise {S A B} (m : Py S A) (k : A -> Py S B) s s' o e :
  (m ≫= k) s = (s', o, Raise e) ->
  m s = (s', o, Raise e)
  \/ exists a s1 o1 o2,
      m s = (s1, o1, Return a) /\ k a s1 = (s', o2, Raise e) /\ o = o1 ++ o2.
Proof.
  unfold mbind, Py_bind. destruct (m s) as [[s1 o1] [a|e1]].
  - destruct (k a s1) as [[s2 o2] r] eqn:Hk. intros [= -> <- ->].
    right. exists a, s1, o1, o2. auto.
  - intros [= -> -> ->]. auto.
Qed.

Ltac run :=
  unfold mbind, Py_bind, mret, Py_ret, get, put, raise, print, zoom; simpl.

(** *** The base class *)

Lemma Account_deposit_eq (amount : Z) (self : Account) :
  Account_deposit amount self =
    if amount <=? 0 then (self, [], Raise InvalidAmount)
    else (set_balance (_balance self + amount) self, [], Return tt).
Proof. unfold Account_deposit. run. destruct (amount <=? 0); reflexivity. Qed.

Lemma Account_withdraw_eq (amount : Z) (self : Account) :
  Account_withdraw amount self =
    if amount <=? 0 then (self, [], Raise InvalidAmount)
    else if amount >? _balance self then (self, [], Raise InsufficientBalance)
    else (set_balance (_balance self - amount) self, [], Return tt).
Proof.
  unfold Account_withdraw. run.
  destruct (amount <=? 0); [reflexivity|].
  destruct (amount >? _balance self); reflexivity.
Qed.

Lemma set_balance_id (self : Account) : set_balance (_balance self) self = self.
Proof. destruct self; reflexivity. Qed.

Lemma with_base_base (o : account) : with_base (base o) o = o.
Proof. destruct o as [a|[a m]|[a l w]]; reflexivity. Qed.

Lemma base_with_base (a : Account) (o : account) : base (with_base a o) = a.
Proof. destruct o; reflexivity. Qed.

(** C4: base [Account.withdraw] raises InvalidAmount when [amount <= 0],
    raises InsufficientBalance when a positive amount exceeds the balance
    (the checks run in this order), and otherwise decreases the balance by
    exactly [amount], leaving the other fields as they were; in both failure
    cases the account is unchanged. *)
Theorem C4_Account_withdraw (self : Account) (amount : Z) :
  (amount <= 0 ->
     Account_withdraw amount self = (self, [], Raise InvalidAmount))
  /\ (0 < amount -> amount > _balance self ->
     Account_withdraw amount self = (self, [], Raise InsufficientBalance))
  /\ (0 < amount -> amount <= _balance self ->
     exists self',
       Account_withdraw amount self = (self', [], Return tt)
       /\ _balance self' = _balance self - amount
       /\ self' = set_balance (_balance self - amount) self).
Proof.
  rewrite Account_withdraw_eq. repeat split.
  - intros H. destruct (Z.leb_spec amount 0); [reflexivity | lia].
  - intros H1 H2. destruct (Z.leb_spec amount 0); [lia|].
    destruct (Z.gtb_spec amount (_balance self)); [reflexivity | lia].
  - intros H1 H2. destruct (Z.leb_spec amount 0); [lia|].
    destruct (Z.gtb_spec amount (_balance self)); [lia|].
    eexists. split; [reflexivity|]. split; reflexivity.
Qed.

Lemma C4_Account_withdraw_witness :
  Account_withdraw 0 (Account_init 1 100 "pw" "Ane")
    = (Account_init 1 100 "pw" "Ane", [], Raise InvalidAmount)
  /\ Account_withdraw 101 (Account_init 1 100 "pw" "Ane")
    = (Account_init 1 100 "pw" "Ane", [], Raise InsufficientBalance)
  /\ exists self',
       Account_withdraw 100 (Account_init 1 100 "pw" "Ane") = (self', [], Return tt)
       /\ _balance self' = _balance (Account_init 1 100 "pw" "Ane") - 100
       /\ self' = set_balance (_balance (Account_init 1 100 "pw" "Ane") - 100)
                              (Account_init 1 100 "pw" "Ane").
Proof.
  split; [|split].
  - apply (proj1 (C4_Account_withdraw (Account_init 1 100 "pw" "Ane") 0)). lia.
  - apply (proj1 (proj2 (C4_Account_withdraw (Account_init 1 100 "pw" "Ane") 101)));
      simpl; lia.
  - apply (proj2 (proj2 (C4_Account_withdraw (Account_init 1 100 "pw" "Ane") 100)));
      simpl; lia.
Defined.

(** *** SavingAccount *)

Lemma SavingAccount_withdraw_eq (amount : Z) (self : SavingAccount) :
  SavingAccount_withdraw amount self =
    if _balance (saving_base self) - amount <? min_balance self
    then (self, [], Raise MinimumBalanceViolation)
    else super_saving (Account_withdraw amount) self.
Proof.
  unfold SavingAccount_withdraw. run.
  destruct (_ <? _); [reflexivity|].
  destruct (super_saving (Account_withdraw amount) self) as [[a o] r].
  reflexivity.
Qed.

Lemma super_saving_withdraw (amount : Z) (self : SavingAccount) :
  super_saving (Account_withdraw amount) self =
    if amount <=? 0 then (self, [], Raise InvalidAmount)
    else if amount >? _balance (saving_base self)
    then (self, [], Raise InsufficientBalance)
    else ({| saving_base :=
               set_balance (_balance (saving_base self) - amount) (saving_base self);
             min_balance := min_balance self |}, [], Return tt).
Proof.
  unfold super_saving, zoom. rewrite Account_withdraw_eq.
  destruct self as [a m]; simpl.
  destruct (amount <=? 0); [reflexivity|].
  destruct (amount >? _balance a); reflexivity.
Qed.

(** C2: [SavingAccount.withdraw] raises MinimumBalanceViolation and leaves
    the account unchanged whenever [balance - amount < min_balance]; a
    positive amount within the balance that brings the balance exactly to
    [min_balance] is withdrawn; and after every successful withdrawal the
    balance is at least [min_balance]. *)
Theorem C2_SavingAccount_withdraw (self : SavingAccount) (amount : Z) :
  (_balance (saving_base self) - amount < min_balance self ->
     SavingAccount_withdraw amount self = (self, [], Raise MinimumBalanceViolation))
  /\ (0 < amount -> amount <= _balance (saving_base self) ->
      _balance (saving_base self) - amount = min_balance self ->
      exists self',
        SavingAccount_withdraw amount self = (self', [], Return tt)
        /\ _balance (saving_base self') = min_balance self
        /\ min_balance self' = min_balance self)
  /\ (forall self' out,
      SavingAccount_withdraw amount self = (self', out, Return tt) ->
      min_balance self' = min_balance self
      /\ _balance (saving_base self') = _balance (saving_base self) - amount
      /\ min_balance self' <= _balance (saving_base self')).
Proof.
  rewrite SavingAccount_withdraw_eq, super_saving_withdraw. repeat split.
  - intros H. destruct (Z.ltb_spec (_balance (saving_base self) - amount)
                                   (min_balance self)); [reflexivity | lia].
  - intros H1 H2 H3.
    destruct (Z.ltb_spec (_balance (saving_base self) - amount) (min_balance self));
      [lia|].
    destruct (Z.leb_spec amount 0); [lia|].
    destruct (Z.gtb_spec amount (_balance (saving_base self))); [lia|].
    eexists. split; [reflexivity|]. simpl. auto.
  - revert H. destruct (_ <? _); [discriminate|].
    destruct (amount <=? 0); [discriminate|].
    destruct (amount >? _); [discriminate|]. intros [= <- _]. reflexivity.
  - revert H. destruct (_ <? _); [discriminate|].
    destruct (amount <=? 0); [discriminate|].
    destruct (amount >? _); [discriminate|]. intros [= <- _]. reflexivity.
  - revert H.
    destruct (Z.ltb_spec (_balance (saving_base self) - amount) (min_balance self));
      [discriminate|].
    destruct (amount <=? 0); [discriminate|].
    destruct (amount >? _); [discriminate|]. intros [= <- _]. simpl. lia.
Qed.

Lemma C2_SavingAccount_withdraw_witness :
  SavingAccount_withdraw 4001 (SavingAccount_init 1 5000 "pass1" "Ane" 1000)
    = (SavingAccount_init 1 5000 "pass1" "Ane" 1000, [], Raise MinimumBalanceViolation)
  /\ (exists self',
        SavingAccount_withdraw 4000 (SavingAccount_init 1 5000 "pass1" "Ane" 1000)
          = (self', [], Return tt)
        /\ _balance (saving_base self') = 1000
        /\ min_balance self' = 1000)
  /\ min_balance (state_of (SavingAccount_withdraw 500
                              (SavingAccount_init 1 5000 "pass1" "Ane" 1000)))
     <= _balance (saving_base
                    (state_of (SavingAccount_withdraw 500
                                 (SavingAccount_init 1 5000 "pass1" "Ane" 1000)))).
Proof.
  split; [|split].
  - apply (proj1 (C2_SavingAccount_withdraw
                    (SavingAccount_init 1 5000 "pass1" "Ane" 1000) 4001)).
    simpl. lia.
  - apply (proj1 (proj2 (C2_SavingAccount_withdraw
                           (SavingAccount_init 1 5000 "pass1" "Ane" 1000) 4000)));
      simpl; lia.
  - refine (proj2 (proj2 (proj2 (proj2 (C2_SavingAccount_withdraw
              (SavingAccount_init 1 5000 "pass1" "Ane" 1000) 500)) _ [] _))).
    reflexivity.
Defined.

(** *** ExpensesAccount *)

Lemma ExpensesAccount_withdraw_eq (amount : Z) (self : ExpensesAccount) :
  ExpensesAccount_withdraw amount self =
    if monthly_withdraw self + amount >? month_limit self
    then (self, [], Raise MonthlyLimitExceeded)
    else if amount <=? 0 then (self, [], Raise InvalidAmount)
    else if amount >? _balance (expenses_base self)
    then (self, [], Raise InsufficientBalance)
    else ({| expenses_base :=
               set_balance (_balance (expenses_base self) - amount) (expenses_base self);
             month_limit := month_limit self;
             monthly_withdraw := monthly_withdraw self + amount |}, [], Return tt).
Proof.
  unfold ExpensesAccount_withdraw, super_expenses. run.
  destruct (_ >? month_limit self); [reflexivity|].
  rewrite Account_withdraw_eq. destruct self as [a l w]; simpl.
  destruct (amount <=? 0); [reflexivity|].
  destruct (amount >? _balance a); reflexivity.
Qed.

(** C3: [ExpensesAccount.withdraw] raises MonthlyLimitExceeded and changes
    neither balance nor counter when [monthly_withdraw + amount > month_limit];
    within the limit and with [0 < amount <= balance] it succeeds, decreasing
    the balance by [amount] and increasing [monthly_withdraw] by [amount];
    and when a base check fails ([amount <= 0] or [amount > balance]) the
    call raises and the whole account, counter included, is unchanged. *)
Theorem C3_ExpensesAccount_withdraw (self : ExpensesAccount) (amount : Z) :
  (monthly_withdraw self + amount > month_limit self ->
     ExpensesAccount_withdraw amount self = (self, [], Raise MonthlyLimitExceeded))
  /\ (monthly_withdraw self + amount <= month_limit self ->
      0 < amount -> amount <= _balance (expenses_base self) ->
      exists self',
        ExpensesAccount_withdraw amount self = (self', [], Return tt)
        /\ _balance (expenses_base self') = _balance (expenses_base self) - amount
        /\ monthly_withdraw self' = monthly_withdraw self + amount
        /\ month_limit self' = month_limit self)
  /\ (amount <= 0 \/ amount > _balance (expenses_base self) ->
      exists e, ExpensesAccount_withdraw amount self = (self, [], Raise e)).
Proof.
  rewrite ExpensesAccount_withdraw_eq. split; [|split].
  - intros H.
    destruct (Z.gtb_spec (monthly_withdraw self + amount) (month_limit self));
      [reflexivity | lia].
  - intros H1 H2 H3.
    destruct (Z.gtb_spec (monthly_withdraw self + amount) (month_limit self)); [lia|].
    destruct (Z.leb_spec amount 0); [lia|].
    destruct (Z.gtb_spec amount (_balance (expenses_base self))); [lia|].
    eexists. split; [reflexivity|]. simpl. auto.
  - intros H.
    destruct (_ >? month_limit self); [eauto|].
    destruct (Z.leb_spec amount 0); [eauto|].
    destruct (Z.gtb_spec amount (_balance (expenses_base self))); [eauto | lia].
Qed.

Lemma C3_ExpensesAccount_withdraw_witness :
  ExpensesAccount_withdraw 2001 (ExpensesAccount_init 2 3000 "pass2" "Esther" 2000)
    = (ExpensesAccount_init 2 3000 "pass2" "Esther" 2000, [], Raise MonthlyLimitExceeded)
  /\ (exists self',
        ExpensesAccount_withdraw 2000 (ExpensesAccount_init 2 3000 "pass2" "Esther" 2000)
          = (self', [], Return tt)
        /\ _balance (expenses_base self') = 3000 - 2000
        /\ monthly_withdraw self' = 0 + 2000
        /\ month_limit self' = 2000)
  /\ (exists e,
        ExpensesAccount_withdraw 0 (ExpensesAccount_init 2 3000 "pass2" "Esther" 2000)
          = (ExpensesAccount_init 2 3000 "pass2" "Esther" 2000, [], Raise e)).
Proof.
  split; [|split].
  - apply (proj1 (C3_ExpensesAccount_withdraw
                    (ExpensesAccount_init 2 3000 "pass2" "Esther" 2000) 2001)).
    simpl. lia.
  - apply (proj1 (proj2 (C3_ExpensesAccount_withdraw
                           (ExpensesAccount_init 2 3000 "pass2" "Esther" 2000) 2000)));
      simpl; lia.
  - apply (proj2 (proj2 (C3_ExpensesAccount_withdraw
                           (ExpensesAccount_init 2 3000 "pass2" "Esther" 2000) 0))).
    left. lia.
Defined.

(** *** Any account: dispatch on the class *)

Lemma deposit_eq (amount : Z) (o : account) :
  deposit amount o =
    if amount <=? 0 then (o, [], Raise InvalidAmount)
    else (with_base (set_balance (balance o + amount) (base o)) o, [], Return tt).
Proof.
  unfold deposit, inherited, zoom, balance. rewrite Account_deposit_eq.
  destruct (amount <=? 0); [|reflexivity]. rewrite with_base_base. reflexivity.
Qed.

Lemma withdraw_eq (amount : Z) (o : account) :
  withdraw amount o =
    if violates_subclass_rule amount o then (o, [], Raise (subclass_error o))
    else if amount <=? 0 then (o, [], Raise InvalidAmount)
    else if amount >? balance o then (o, [], Raise InsufficientBalance)
    else match o with
         | a_expenses e =>
             (a_expenses
                {| expenses_base := set_balance (balance o - amount) (base o);
                   month_limit := month_limit e;
                   monthly_withdraw := monthly_withdraw e + amount |},
              [], Return tt)
         | _ => (with_base (set_balance (balance o - amount) (base o)) o, [], Return tt)
         end.
Proof.
  destruct o as [a|s|e]; unfold withdraw, as_class, balance; simpl.
  - rewrite Account_withdraw_eq.
    destruct (amount <=? 0); [reflexivity|].
    destruct (amount >? _balance a); reflexivity.
  - rewrite SavingAccount_withdraw_eq, super_saving_withdraw.
    destruct (_ <? _); [reflexivity|].
    destruct (amount <=? 0); [reflexivity|].
    destruct (amount >? _); reflexivity.
  - rewrite ExpensesAccount_withdraw_eq.
    destruct (_ >? month_limit e); [reflexivity|].
    destruct (amount <=? 0); [reflexivity|].
    destruct (amount >? _); reflexivity.
Qed.

(** Every outcome of [withdraw]: it prints nothing, and either raises and
    leaves the object as it was, or returns with the balance decreased by a
    positive amount the balance covered, the history untouched. *)
Lemma withdraw_outcome (amount : Z) (o o' : account) out r :
  withdraw amount o = (o', out, r) ->
  out = []
  /\ ((exists e, r = Raise e /\ o' = o)
      \/ (r = Return tt /\ 0 < amount <= balance o
          /\ violates_subclass_rule amount o = false
          /\ balance o' = balance o - amount /\ history o' = history o)).
Proof.
  rewrite withdraw_eq.
  destruct (violates_subclass_rule amount o); [intros [= <- <- <-]; eauto|].
  destruct (Z.leb_spec amount 0); [intros [= <- <- <-]; eauto|].
  destruct (Z.gtb_spec amount (balance o)); [intros [= <- <- <-]; eauto|].
  destruct o as [a|s|e]; intros [= <- <- <-]; (split; [reflexivity|]); right;
    unfold balance, history; simpl; repeat split; auto; lia.
Qed.

Lemma deposit_outcome (amount : Z) (o o' : account) out r :
  deposit amount o = (o', out, r) ->
  out = []
  /\ ((r = Raise InvalidAmount /\ amount <= 0 /\ o' = o)
      \/ (r = Return tt /\ 0 < amount
          /\ balance o' = balance o + amount /\ history o' = history o)).
Proof.
  rewrite deposit_eq.
  destruct (Z.leb_spec amount 0); intros [= <- <- <-]; (split; [reflexivity|]);
    [left; auto|right].
  unfold balance, history. rewrite base_with_base. simpl. auto.
Qed.

Lemma add_transaction_eq (t : transaction) (o : account) :
  add_transaction t o =
    (with_base (set_transactions (history o ++ [t]) (base o)) o, [], Return tt).
Proof. reflexivity. Qed.

Lemma add_transaction_outcome (t : transaction) (o o' : account) out r :
  add_transaction t o = (o', out, r) ->
  out = [] /\ r = Return tt
  /\ balance o' = balance o /\ history o' = history o ++ [t].
Proof.
  rewrite add_transaction_eq. intros [= <- <- <-].
  unfold balance, history. rewrite base_with_base. auto.
Qed.

(** C5 (as the code has it): for every account of any class and every
    [amount <= 0], [deposit] raises InvalidAmount and [withdraw] raises, both
    leaving the account unchanged.  The error of [withdraw] is InvalidAmount
    unless the subclass's own check, which runs first, rejects the amount:
    then it is MinimumBalanceViolation for a SavingAccount and
    MonthlyLimitExceeded for an ExpensesAccount. *)
Theorem C5_nonpositive_amount (o : account) (amount : Z) :
  amount <= 0 ->
  deposit amount o = (o, [], Raise InvalidAmount)
  /\ (exists e, withdraw amount o = (o, [], Raise e))
  /\ (violates_subclass_rule amount o = false ->
      withdraw amount o = (o, [], Raise InvalidAmount))
  /\ (violates_subclass_rule amount o = true ->
      withdraw amount o = (o, [], Raise (subclass_error o)))
  /\ (forall a, o = a_base a -> withdraw amount o = (o, [], Raise InvalidAmount))
  /\ (forall s, o = a_saving s -> min_balance s <= balance o ->
      withdraw amount o = (o, [], Raise InvalidAmount))
  /\ (forall e, o = a_expenses e -> monthly_withdraw e <= month_limit e ->
      withdraw amount o = (o, [], Raise InvalidAmount)).
Proof.
  intros Hle. rewrite deposit_eq, withdraw_eq.
  destruct (Z.leb_spec amount 0); [|lia].
  split; [reflexivity|]. split; [destruct (violates_subclass_rule amount o); eauto|].
  split; [intros ->; reflexivity|]. split; [intros ->; reflexivity|].
  split; [intros a ->; reflexivity|]. split.
  - intros s -> Hs. unfold balance in Hs. simpl in *.
    destruct (Z.ltb_spec (_balance (saving_base s) - amount) (min_balance s));
      [lia | reflexivity].
  - intros e -> He. simpl.
    destruct (Z.gtb_spec (monthly_withdraw e + amount) (month_limit e));
      [lia | reflexivity].
Qed.

Lemma C5_nonpositive_amount_witness :
  deposit (-5) (a_saving (SavingAccount_init 1 5000 "pass1" "Ane" 1000))
    = (a_saving (SavingAccount_init 1 5000 "pass1" "Ane" 1000), [], Raise InvalidAmount)
  /\ withdraw (-5) (a_saving (SavingAccount_init 1 5000 "pass1" "Ane" 1000))
    = (a_saving (SavingAccount_init 1 5000 "pass1" "Ane" 1000), [], Raise InvalidAmount).
Proof.
  assert (H : -5 <= 0) by lia.
  pose proof (C5_nonpositive_amount
                (a_saving (SavingAccount_init 1 5000 "pass1" "Ane" 1000)) (-5) H)
    as (Hd & _ & Hw & _).
  split; [exact Hd | apply Hw; reflexivity].
Defined.

(** C5 as stated fails: a SavingAccount opened below its floor (balance 500,
    [min_balance] 1000) answers [withdraw(0)] with MinimumBalanceViolation,
    not InvalidAmount, because the subclass check runs before the base
    check. *)
Lemma C5_counterexample :
  0 <= 0
  /\ withdraw 0 (a_saving (SavingAccount_init 1 500 "pass1" "Ane" 1000))
     = (a_saving (SavingAccount_init 1 500 "pass1" "Ane" 1000), [],
        Raise (ValueError "Minimum balance rule violated"))
  /\ result_of (withdraw 0 (a_saving (SavingAccount_init 1 500 "pass1" "Ane" 1000)))
     <> Raise InvalidAmount.
Proof. split; [lia|]. split; [reflexivity | discriminate]. Qed.

(** C8 (as the code has it): for every account of any class with a
    non-negative balance and every positive amount, [deposit(amount)]
    followed by [withdraw(amount)] succeeds and returns the balance to its
    original value, provided the withdrawal does not violate the subclass
    rule (minimum-balance floor or monthly cap). *)
Theorem C8_deposit_then_withdraw (o : account) (amount : Z) :
  0 < amount ->
  0 <= balance o ->
  violates_subclass_rule amount (state_of (deposit amount o)) = false ->
  exists o',
    (deposit amount;; withdraw amount) o = (o', [], Return tt)
    /\ balance o' = balance o
    /\ history o' = history o.
Proof.
  intros Hpos Hbal Hrule.
  destruct (deposit amount o) as [[o1 out1] r1] eqn:Hd.
  destruct (deposit_outcome _ _ _ _ _ Hd) as [-> [(_ & ? & _)|(-> & _ & Hb1 & Hh1)]];
    [lia|].
  unfold state_of in Hrule; simpl in Hrule.
  destruct (withdraw amount o1) as [[o2 out2] r2] eqn:Hw.
  pose proof Hw as Hw'. rewrite withdraw_eq, Hrule in Hw'.
  destruct (Z.leb_spec amount 0); [lia|].
  destruct (Z.gtb_spec amount (balance o1)); [lia|].
  destruct (withdraw_outcome _ _ _ _ _ Hw) as [-> [(e & -> & _)|(-> & _ & _ & Hb2 & Hh2)]].
  { destruct o1; discriminate. }
  exists o2. unfold mbind, Py_bind. rewrite Hd, Hw. simpl.
  repeat split; [lia | congruence].
Qed.

Lemma C8_deposit_then_withdraw_witness :
  exists o',
    (deposit 4000;; withdraw 4000)
      (a_saving (SavingAccount_init 1 5000 "pass1" "Ane" 1000)) = (o', [], Return tt)
    /\ balance o' = balance (a_saving (SavingAccount_init 1 5000 "pass1" "Ane" 1000))
    /\ history o' = history (a_saving (SavingAccount_init 1 5000 "pass1" "Ane" 1000)).
Proof.
  apply (C8_deposit_then_withdraw
           (a_saving (SavingAccount_init 1 5000 "pass1" "Ane" 1000)) 4000).
  - lia.
  - unfold balance. simpl. lia.
  - reflexivity.
Defined.

(** C8 as stated fails on an account opened with a negative balance: after
    [deposit(30)] on balance -50 the base check of [withdraw(30)] raises
    InsufficientBalance (30 > -20) although no subclass rule is involved,
    and the balance stays at -20. *)
Lemma C8_counterexample :
  0 < 30
  /\ violates_subclass_rule 30
       (state_of (deposit 30 (a_base (Account_init 1 (-50) "pw" "Ane")))) = false
  /\ (deposit 30;; withdraw 30) (a_base (Account_init 1 (-50) "pw" "Ane"))
     = (a_base (Account_init 1 (-20) "pw" "Ane"), [],
        Raise (ValueError "Insufficient balance"))
  /\ balance (state_of ((deposit 30;; withdraw 30)
                          (a_base (Account_init 1 (-50) "pw" "Ane"))))
     <> balance (a_base (Account_init 1 (-50) "pw" "Ane")).
Proof.
  split; [lia|]. split; [reflexivity|]. split; [reflexivity|].
  vm_compute. discriminate.
Qed.

(** ** Transactions on the shared store *)

Lemma on_Return {A} (r : ref) (m : Py account A) (h h' : store) out x :
  on r m h = (h', out, Return x) ->
  exists o o', h !! r = Some o /\ m o = (o', out, Return x) /\ h' = <[r := o']> h.
Proof.
  unfold on. destruct (h !! r) as [o|]; [|discriminate].
  destruct (m o) as [[o' out'] res] eqn:Hm. intros [= <- <- ->]. eauto.
Qed.

Lemma on_unchanged {A} (r : ref) (m : Py account A) (h : store) o out res :
  h !! r = Some o -> m o = (o, out, res) -> on r m h = (h, out, res).
Proof.
  intros Hr Hm. unfold on. rewrite Hr, Hm. cbv beta iota.
  rewrite insert_id by exact Hr. reflexivity.
Qed.

Lemma validate_transfer_eq (amount : Z) (h : store) :
  TransferTransaction_validate amount h =
    if amount <=? 0 then (h, [], Raise InvalidAmount) else (h, [], Return tt).
Proof. unfold TransferTransaction_validate. destruct (amount <=? 0); reflexivity. Qed.

(** The steps of a transfer that returns: each of the four method calls
    found its object and returned, after a validation that passed. *)
Lemma transfer_Return (src dst : ref) (amount : Z) (h h' : store) out :
  TransferTransaction_process_transaction src dst amount h = (h', out, Return tt) ->
  exists a a1 b b1 c c1 d d1,
    0 < amount
    /\ h !! src = Some a /\ withdraw amount a = (a1, [], Return tt)
    /\ <[src := a1]> h !! dst = Some b /\ deposit amount b = (b1, [], Return tt)
    /\ <[dst := b1]> (<[src := a1]> h) !! src = Some c
    /\ add_transaction (TransferTransaction src dst amount) c = (c1, [], Return tt)
    /\ <[src := c1]> (<[dst := b1]> (<[src := a1]> h)) !! dst = Some d
    /\ add_transaction (TransferTransaction src dst amount) d = (d1, [], Return tt)
    /\ h' = <[dst := d1]> (<[src := c1]> (<[dst := b1]> (<[src := a1]> h)))
    /\ out = [].
Proof.
  unfold TransferTransaction_process_transaction. intros H.
  apply bind_Return in H as ([] & h0 & o0 & o0' & Hv & H & ->).
  rewrite validate_transfer_eq in Hv.
  destruct (Z.leb_spec amount 0); [discriminate|]. injection Hv as <- <-.
  apply bind_Return in H as ([] & h1 & o1 & o1' & Hw & H & ->).
  apply on_Return in Hw as (a & a1 & Ha & Hw & ->).
  destruct (withdraw_outcome _ _ _ _ _ Hw) as [-> _].
  apply bind_Return in H as ([] & h2 & o2 & o2' & Hd & H & ->).
  apply on_Return in Hd as (b & b1 & Hb & Hd & ->).
  destruct (deposit_outcome _ _ _ _ _ Hd) as [-> _].
  apply bind_Return in H as ([] & h3 & o3 & o3' & Hc & H & ->).
  apply on_Return in Hc as (c & c1 & Hc & Hac & ->).
  destruct (add_transaction_outcome _ _ _ _ _ Hac) as [-> _].
  apply on_Return in H as (d & d1 & Hd' & Had & ->).
  destruct (add_transaction_outcome _ _ _ _ _ Had) as [-> _].
  exists a, a1, b, b1, c, c1, d, d1. repeat split; auto.
Qed.

(** A method that always returns, called on a reference that denotes an
    object, returns and allocates nothing. *)
Lemma on_returns {A} (r : ref) (m : Py account A) (h : store) (x : A) :
  is_Some (h !! r) ->
  (forall o, exists o', m o = (o', [], Return x)) ->
  exists h', on r m h = (h', [], Return x) /\ dom h' = dom h.
Proof.
  intros [o Ho] Hm. destruct (Hm o) as [o' Ho'].
  exists (<[r := o']> h). unfold on. rewrite Ho, Ho'. split; [reflexivity|].
  rewrite dom_insert_L.
  apply subseteq_union_1_L, singleton_subseteq_l, elem_of_dom. eauto.
Qed.

Lemma is_Some_dom_eq (h h' : store) (r : ref) :
  dom h' = dom h -> is_Some (h !! r) -> is_Some (h' !! r).
Proof. intros Hd H. apply elem_of_dom. rewrite Hd. apply elem_of_dom, H. Qed.

(** A transfer of a positive amount returns as soon as the source's
    withdraw does: the deposit and the two history records cannot fail. *)
Lemma transfer_returns (src dst : ref) (amount : Z) (h : store) (a : account) :
  0 < amount ->
  h !! src = Some a -> is_Some (h !! dst) ->
  result_of (withdraw amount a) = Return tt ->
  exists h', TransferTransaction_process_transaction src dst amount h
             = (h', [], Return tt).
Proof.
  intros Hpos Ha Hdst Hw.
  destruct (withdraw amount a) as [[a1 out] r] eqn:Hwa.
  unfold result_of in Hw; simpl in Hw; subst r.
  destruct (withdraw_outcome _ _ _ _ _ Hwa) as [-> _].
  assert (Hdep : forall o, exists o', deposit amount o = (o', [], Return tt)).
  { intros o. rewrite deposit_eq. destruct (Z.leb_spec amount 0); [lia | eauto]. }
  assert (Hadd : forall o, exists o',
             add_transaction (TransferTransaction src dst amount) o
             = (o', [], Return tt)).
  { intros o. rewrite add_transaction_eq. eauto. }
  assert (H1 : on src (withdraw amount) h = (<[src := a1]> h, [], Return tt)).
  { unfold on. rewrite Ha, Hwa. reflexivity. }
  assert (Hd1 : dom (<[src := a1]> h) = dom h).
  { rewrite dom_insert_L.
    apply subseteq_union_1_L, singleton_subseteq_l, elem_of_dom. eauto. }
  assert (Hsrc : is_Some (h !! src)) by eauto.
  destruct (on_returns dst (deposit amount) (<[src := a1]> h) tt) as (h2 & H2 & Hd2);
    [eapply is_Some_dom_eq; eauto | exact Hdep |].
  rewrite Hd1 in Hd2.
  destruct (on_returns src (add_transaction (TransferTransaction src dst amount)) h2 tt)
    as (h3 & H3 & Hd3); [eapply is_Some_dom_eq; eauto | exact Hadd |].
  rewrite Hd2 in Hd3.
  destruct (on_returns dst (add_transaction (TransferTransaction src dst amount)) h3 tt)
    as (h4 & H4 & Hd4); [eapply is_Some_dom_eq; eauto | exact Hadd |].
  exists h4. unfold TransferTransaction_process_transaction, mbind, Py_bind.
  rewrite validate_transfer_eq. destruct (Z.leb_spec amount 0); [lia|].
  rewrite H1, H2, H3, H4. reflexivity.
Qed.

(** C1 (as the code has it): a transfer between two distinct accounts that
    is processed successfully decreases the source's balance by exactly
    [amount], increases the destination's by exactly [amount] and appends
    the transaction to both histories; and when the validation or the
    source's withdraw step fails ([amount <= 0], insufficient balance, or a
    subclass rule) the call raises that error and the whole store -- the
    destination's balance and both histories included -- is unchanged.
    Conversely the transfer is processed successfully whenever the amount
    is positive and the source's withdraw step returns. *)
Theorem C1_transfer (h : store) (src dst : ref) (amount : Z) :
  let t := TransferTransaction src dst amount in
  (src <> dst ->
   forall h' out, process_transaction t h = (h', out, Return tt) ->
   exists a b,
     h !! src = Some a /\ h !! dst = Some b
     /\ balance_at h' src = Some (balance a - amount)
     /\ balance_at h' dst = Some (balance b + amount)
     /\ history_at h' src = Some (history a ++ [t])
     /\ history_at h' dst = Some (history b ++ [t]))
  /\ (amount <= 0 -> process_transaction t h = (h, [], Raise InvalidAmount))
  /\ (forall a e, 0 < amount -> h !! src = Some a ->
      result_of (withdraw amount a) = Raise e ->
      process_transaction t h = (h, [], Raise e))
  /\ (forall a, 0 < amount -> h !! src = Some a -> is_Some (h !! dst) ->
      result_of (withdraw amount a) = Return tt ->
      exists h', process_transaction t h = (h', [], Return tt)).
Proof.
  intros t. split; [|split; [|split]]; [| | |apply transfer_returns].
  - intros Hne h' out H. simpl in H.
    apply transfer_Return in H
      as (a & a1 & b & b1 & c & c1 & d & d1 & Hpos & Ha & Hw & Hb & Hd & Hc & Hac
          & Hd' & Had & -> & ->).
    rewrite lookup_insert_ne in Hb by exact Hne.
    rewrite lookup_insert_ne, lookup_insert_eq in Hc by auto. injection Hc as <-.
    rewrite lookup_insert_ne, lookup_insert_eq in Hd' by auto. injection Hd' as <-.
    destruct (withdraw_outcome _ _ _ _ _ Hw) as [_ [(e & ? & _)|(_ & _ & _ & Hwb & Hwh)]];
      [discriminate|].
    destruct (deposit_outcome _ _ _ _ _ Hd) as [_ [(? & _)|(_ & _ & Hdb & Hdh)]];
      [discriminate|].
    destruct (add_transaction_outcome _ _ _ _ _ Hac) as (_ & _ & Hcb & Hch).
    destruct (add_transaction_outcome _ _ _ _ _ Had) as (_ & _ & Hdb' & Hdh').
    exists a, b. unfold balance_at, history_at.
    rewrite lookup_insert_eq, lookup_insert_ne, lookup_insert_eq by auto. simpl.
    fold t in Hch, Hdh'. repeat split; auto; congruence.
  - intros Hle. simpl. unfold TransferTransaction_process_transaction.
    unfold mbind at 1, Py_bind. rewrite validate_transfer_eq.
    destruct (Z.leb_spec amount 0); [reflexivity | lia].
  - intros a e Hpos Ha Hr. simpl. unfold TransferTransaction_process_transaction.
    unfold mbind at 1, Py_bind. rewrite validate_transfer_eq.
    destruct (Z.leb_spec amount 0); [lia|].
    destruct (withdraw amount a) as [[a' out] r] eqn:Hw.
    unfold result_of in Hr; simpl in Hr; subst r.
    destruct (withdraw_outcome _ _ _ _ _ Hw) as [-> [(e' & _ & ->)|(? & _)]];
      [|discriminate].
    unfold mbind, Py_bind. rewrite (on_unchanged _ _ _ _ _ _ Ha Hw). reflexivity.
Qed.

Lemma C1_transfer_witness :
  (exists a b,
     main_store !! acc1 = Some a /\ main_store !! acc2 = Some b
     /\ balance_at (state_of (process_transaction (TransferTransaction acc1 acc2 1000)
                                                  main_store)) acc1
        = Some (balance a - 1000)
     /\ balance_at (state_of (process_transaction (TransferTransaction acc1 acc2 1000)
                                                  main_store)) acc2
        = Some (balance b + 1000)
     /\ history_at (state_of (process_transaction (TransferTransaction acc1 acc2 1000)
                                                  main_store)) acc1
        = Some (history a ++ [TransferTransaction acc1 acc2 1000])
     /\ history_at (state_of (process_transaction (TransferTransaction acc1 acc2 1000)
                                                  main_store)) acc2
        = Some (history b ++ [TransferTransaction acc1 acc2 1000]))
  /\ process_transaction (TransferTransaction acc1 acc2 0) main_store
     = (main_store, [], Raise InvalidAmount)
  /\ process_transaction (TransferTransaction acc1 acc2 4001) main_store
     = (main_store, [], Raise MinimumBalanceViolation).
Proof.
  split; [|split].
  - refine (proj1 (C1_transfer main_store acc1 acc2 1000) _ _ [] _);
      [discriminate | reflexivity].
  - apply (proj1 (proj2 (C1_transfer main_store acc1 acc2 0))). lia.
  - apply (proj1 (proj2 (proj2 (C1_transfer main_store acc1 acc2 4001)))
             (a_saving (SavingAccount_init 1 5000 "pass1" "Ane" 1000)));
      [lia | reflexivity | reflexivity].
Defined.

(** C1 as stated fails when source and destination are the same account:
    the transfer succeeds, and the source's balance is not decreased by
    [amount] but is what it was. *)
Lemma C1_counterexample :
  process_transaction (TransferTransaction acc1 acc1 1000) main_store
    = (state_of (process_transaction (TransferTransaction acc1 acc1 1000) main_store),
       [], Return tt)
  /\ balance_at main_store acc1 = Some 5000
  /\ balance_at (state_of (process_transaction (TransferTransaction acc1 acc1 1000)
                                               main_store)) acc1 = Some 5000
  /\ Some 5000 <> Some (5000 - 1000).
Proof. repeat split; try reflexivity. discriminate. Qed.

(** C10: a transfer whose source and destination are the same account, when
    it is processed successfully, leaves that account's balance equal to
    its initial balance and appends the same transaction to its history
    twice. *)
Theorem C10_self_transfer (h h' : store) (r : ref) (amount : Z) out :
  process_transaction (TransferTransaction r r amount) h = (h', out, Return tt) ->
  exists a,
    h !! r = Some a
    /\ 0 < amount
    /\ result_of (withdraw amount a) = Return tt
    /\ balance_at h' r = Some (balance a)
    /\ history_at h' r
       = Some (history a ++ [TransferTransaction r r amount;
                             TransferTransaction r r amount]).
Proof.
  intros H. simpl in H.
  apply transfer_Return in H
    as (a & a1 & b & b1 & c & c1 & d & d1 & Hpos & Ha & Hw & Hb & Hd & Hc & Hac
        & Hd' & Had & -> & ->).
  rewrite lookup_insert_eq in Hb. injection Hb as <-.
  rewrite lookup_insert_eq in Hc. injection Hc as <-.
  rewrite lookup_insert_eq in Hd'. injection Hd' as <-.
  destruct (withdraw_outcome _ _ _ _ _ Hw) as [_ [(e & ? & _)|(_ & _ & _ & Hwb & Hwh)]];
    [discriminate|].
  destruct (deposit_outcome _ _ _ _ _ Hd) as [_ [(? & _)|(_ & _ & Hdb & Hdh)]];
    [discriminate|].
  destruct (add_transaction_outcome _ _ _ _ _ Hac) as (_ & _ & Hcb & Hch).
  destruct (add_transaction_outcome _ _ _ _ _ Had) as (_ & _ & Hdb' & Hdh').
  exists a. unfold balance_at, history_at, result_of.
  rewrite lookup_insert_eq, Hw. simpl.
  repeat split; auto.
  - f_equal. lia.
  - f_equal. rewrite Hdh', Hch, Hdh, Hwh, <- app_assoc. reflexivity.
Qed.

Lemma C10_self_transfer_witness :
  exists a,
    main_store !! acc1 = Some a
    /\ 0 < 1000
    /\ result_of (withdraw 1000 a) = Return tt
    /\ balance_at (state_of (process_transaction (TransferTransaction acc1 acc1 1000)
                                                 main_store)) acc1
       = Some (balance a)
    /\ history_at (state_of (process_transaction (TransferTransaction acc1 acc1 1000)
                                                 main_store)) acc1
       = Some (history a ++ [TransferTransaction acc1 acc1 1000;
                             TransferTransaction acc1 acc1 1000]).
Proof.
  apply (C10_self_transfer main_store _ acc1 1000 []). reflexivity.
Defined.

(** ** Budget manager *)

Section Budget.

Implicit Types (bm : BudgetManager) (category : string) (calls : list call).

Lemma set_budget_limit_eq category limit bm :
  set_budget_limit category limit bm =
    ({| _category_limits := <[category := limit]> (_category_limits bm);
        _spending := <[category := 0]> (_spending bm) |}, [], Return tt).
Proof. reflexivity. Qed.

Lemma add_expense_eq category amount bm :
  add_expense category amount bm =
    match _spending bm !! category with
    | None => (bm, [], Raise UnknownCategory)
    | Some v =>
        let bm' := set_spending (<[category := v + amount]> (_spending bm)) bm in
        match _category_limits bm !! category with
        | None => (bm', [], Raise (KeyError category))
        | Some limit =>
            (bm', if v + amount >? limit then [warning category] else [], Return tt)
        end
    end.
Proof.
  unfold add_expense, contains, getitem. run.
  destruct (_spending bm !! category) as [v|] eqn:Hs; simpl; [|reflexivity].
  rewrite lookup_insert_eq. simpl.
  destruct (_category_limits bm !! category) as [limit|]; simpl; [|reflexivity].
  destruct (v + amount >? limit); reflexivity.
Qed.

(** What one call does to the two dictionaries. *)
Lemma spending_perform (c : call) bm :
  _spending (state_of (perform c bm)) =
    match c with
    | call_set_budget_limit category _ => <[category := 0]> (_spending bm)
    | call_add_expense category amount =>
        match _spending bm !! category with
        | Some v => <[category := v + amount]> (_spending bm)
        | None => _spending bm
        end
    end.
Proof.
  destruct c as [category limit|category amount]; simpl; [reflexivity|].
  rewrite add_expense_eq.
  destruct (_spending bm !! category); [|reflexivity].
  destruct (_category_limits bm !! category); reflexivity.
Qed.

Lemma limits_perform (c : call) bm :
  _category_limits (state_of (perform c bm)) =
    match c with
    | call_set_budget_limit category limit =>
        <[category := limit]> (_category_limits bm)
    | call_add_expense _ _ => _category_limits bm
    end.
Proof.
  destruct c as [category limit|category amount]; simpl; [reflexivity|].
  rewrite add_expense_eq.
  destruct (_spending bm !! category); [|reflexivity].
  destruct (_category_limits bm !! category); reflexivity.
Qed.

Lemma after_cons (c : call) calls bm :
  after (c :: calls) bm = after calls (state_of (perform c bm)).
Proof. reflexivity. Qed.

Lemma after_snoc (c : call) calls bm :
  after (calls ++ [c]) bm = state_of (perform c (after calls bm)).
Proof. unfold after. rewrite fold_left_app. reflexivity. Qed.

Lemma same_keys_perform (c : call) bm :
  same_keys bm -> same_keys (state_of (perform c bm)).
Proof.
  unfold same_keys. intros H. rewrite spending_perform, limits_perform.
  destruct c as [category limit|category amount].
  - rewrite !dom_insert_L, H. reflexivity.
  - destruct (_spending bm !! category) as [v|] eqn:Hv; [|exact H].
    rewrite dom_insert_L, <- H.
    apply subseteq_union_1_L, singleton_subseteq_l, elem_of_dom. eauto.
Qed.

Lemma same_keys_after calls bm : same_keys bm -> same_keys (after calls bm).
Proof.
  revert bm. induction calls as [|c calls IH]; intros bm H; [exact H|].
  rewrite after_cons. apply IH, same_keys_perform, H.
Qed.

Lemma same_keys_reachable bm : reachable bm -> same_keys bm.
Proof. intros [calls ->]. apply same_keys_after. reflexivity. Qed.

(** A category is a key of the spending dictionary exactly when it was one
    at the start or some call of the sequence set its limit. *)
Lemma spending_key_perform category (c : call) bm :
  is_Some (_spending (state_of (perform c bm)) !! category)
  <-> is_Some (_spending bm !! category) \/ sets_limit_of category c = true.
Proof.
  rewrite spending_perform. destruct c as [c0 l0|c0 a0]; simpl.
  - rewrite bool_decide_eq_true. destruct (decide (c0 = category)) as [->|Hne].
    + rewrite lookup_insert_eq. split; eauto.
    + rewrite lookup_insert_ne by exact Hne. tauto.
  - destruct (_spending bm !! c0) as [v|] eqn:Hv.
    + destruct (decide (c0 = category)) as [->|Hne].
      * rewrite lookup_insert_eq, Hv. split; [eauto|]. intros _. eauto.
      * rewrite lookup_insert_ne by exact Hne. split; [auto|].
        intros [H|H]; [exact H | discriminate H].
    + split; [auto|]. intros [H|H]; [exact H | discriminate H].
Qed.

Lemma spending_key_after category calls bm :
  is_Some (_spending (after calls bm) !! category)
  <-> is_Some (_spending bm !! category) \/ limit_was_set category calls = true.
Proof.
  unfold limit_was_set. revert bm.
  induction calls as [|c calls IH]; intros bm; simpl.
  - split; [auto|]. intros [H|H]; [exact H | discriminate H].
  - fold (after calls (state_of (perform c bm))).
    rewrite IH, spending_key_perform, orb_true_iff. tauto.
Qed.

(** Across a sequence without a limit reset of [category] and without a
    negative expense on it, its counter does not decrease. *)
Lemma spent_monotone category calls : forall bm v,
  spent bm category = Some v ->
  limit_was_set category calls = false ->
  no_negative_expense category calls = true ->
  exists v', spent (after calls bm) category = Some v' /\ v <= v'.
Proof.
  unfold limit_was_set, no_negative_expense, spent.
  induction calls as [|c calls IH]; intros bm v Hv Hset Hneg; simpl in *.
  - exists v. split; [exact Hv | lia].
  - apply orb_false_iff in Hset as [Hc Hset].
    apply andb_true_iff in Hneg as [Hn Hneg].
    fold (after calls (state_of (perform c bm))).
    assert (Hstep : exists v1,
               _spending (state_of (perform c bm)) !! category = Some v1 /\ v <= v1).
    { rewrite spending_perform. destruct c as [c0 l0|c0 a0]; simpl in *.
      - apply bool_decide_eq_false in Hc.
        rewrite lookup_insert_ne by exact Hc. exists v. split; [exact Hv | lia].
      - destruct (_spending bm !! c0) as [v0|] eqn:Hv0;
          [|exists v; split; [exact Hv | lia]].
        destruct (bool_decide_reflect (c0 = category)) as [->|Hne].
        + rewrite lookup_insert_eq. exists (v0 + a0).
          split; [reflexivity|]. apply Z.leb_le in Hn.
          rewrite Hv in Hv0. injection Hv0 as <-. lia.
        + rewrite lookup_insert_ne by exact Hne. exists v.
          split; [exact Hv | lia]. }
    destruct Hstep as (v1 & Hv1 & Hle).
    destruct (IH _ _ Hv1 Hset Hneg) as (v' & Hv' & Hle').
    exists v'. split; [exact Hv' | lia].
Qed.

End Budget.

(** C9: in every state reachable from a fresh manager by calls of
    [set_budget_limit] and [add_expense], the spending dictionary and the
    limits dictionary have exactly the same keys; so the limit lookup that
    [add_expense] performs after its membership test on the spending
    dictionary finds its key, and [add_expense] never raises KeyError. *)
Theorem C9_same_keys (bm : BudgetManager) :
  reachable bm ->
  dom (_spending bm) = dom (_category_limits bm)
  /\ (forall category (bm' : BudgetManager),
      contains (_spending bm) category = true ->
      exists limit,
        getitem (_category_limits bm) category bm' = (bm', [], Return limit))
  /\ (forall category amount key,
      result_of (add_expense category amount bm) <> Raise (KeyError key)).
Proof.
  intros Hr. apply same_keys_reachable in Hr. split; [exact Hr|].
  assert (Hl : forall category v, _spending bm !! category = Some v ->
                 exists limit, _category_limits bm !! category = Some limit).
  { intros category v Hv. apply (elem_of_dom_2 (_spending bm)) in Hv.
    rewrite Hr in Hv. apply elem_of_dom in Hv as [limit Hl]. eauto. }
  split.
  - intros category bm' Hc. unfold contains in Hc.
    destruct (_spending bm !! category) as [v|] eqn:Hv; [|discriminate].
    destruct (Hl _ _ Hv) as [limit Hlim]. exists limit.
    unfold getitem. rewrite Hlim. reflexivity.
  - intros category amount key. rewrite add_expense_eq.
    destruct (_spending bm !! category) as [v|] eqn:Hv; [|discriminate].
    destruct (Hl _ _ Hv) as [limit ->]. discriminate.
Qed.

Lemma C9_same_keys_witness :
  dom (_spending (state_of (main_budget BudgetManager_init)))
    = dom (_category_limits (state_of (main_budget BudgetManager_init)))
  /\ (forall category (bm' : BudgetManager),
      contains (_spending (state_of (main_budget BudgetManager_init))) category = true ->
      exists limit,
        getitem (_category_limits (state_of (main_budget BudgetManager_init)))
                category bm' = (bm', [], Return limit))
  /\ (forall category amount key,
      result_of (add_expense category amount (state_of (main_budget BudgetManager_init)))
      <> Raise (KeyError key)).
Proof.
  apply (C9_same_keys (state_of (main_budget BudgetManager_init))).
  exists [call_set_budget_limit "Food" 2000; call_set_budget_limit "Travel" 1500;
          call_add_expense "Food" 1200; call_add_expense "Food" 900].
  reflexivity.
Defined.

(** C7: on a manager that has gone through any sequence of calls,
    [add_expense(category, amount)] raises UnknownCategory exactly when no
    call ever set a limit for that category, and then changes nothing and
    prints nothing; otherwise it returns (an overrun is not an error), adds
    [amount] to the category's spend and leaves the rest of the state alone,
    and prints exactly one warning when the spend now exceeds the limit --
    on every such call -- and nothing when it does not. *)
Theorem C7_add_expense (calls : list call) (category : string) (amount : Z) :
  let bm := after calls BudgetManager_init in
  (result_of (add_expense category amount bm) = Raise UnknownCategory
   <-> limit_was_set category calls = false)
  /\ (limit_was_set category calls = false ->
      add_expense category amount bm = (bm, [], Raise UnknownCategory))
  /\ (limit_was_set category calls = true ->
      exists v limit,
        spent bm category = Some v
        /\ _category_limits bm !! category = Some limit
        /\ result_of (add_expense category amount bm) = Return tt
        /\ state_of (add_expense category amount bm)
           = set_spending (<[category := v + amount]> (_spending bm)) bm
        /\ spent (state_of (add_expense category amount bm)) category
           = Some (v + amount)
        /\ (v + amount > limit ->
            output_of (add_expense category amount bm) = [warning category])
        /\ (v + amount <= limit ->
            output_of (add_expense category amount bm) = [])).
Proof.
  intros bm.
  assert (Hkeys : same_keys bm) by (apply same_keys_reachable; exists calls; reflexivity).
  pose proof (spending_key_after category calls BudgetManager_init) as Hset.
  fold bm in Hset. simpl in Hset. rewrite lookup_empty in Hset.
  rewrite add_expense_eq. unfold spent.
  destruct (_spending bm !! category) as [v|] eqn:Hv.
  - assert (Hs : limit_was_set category calls = true).
    { destruct (proj1 Hset) as [[? [=]]|H]; eauto. }
    assert (Hl : exists limit, _category_limits bm !! category = Some limit).
    { apply (elem_of_dom_2 (_spending bm)) in Hv. rewrite Hkeys in Hv.
      apply elem_of_dom in Hv as [limit Hl]. eauto. }
    destruct Hl as [limit Hl]. rewrite Hl, Hs. simpl.
    split; [split; discriminate|]. split; [discriminate|].
    intros _. exists v, limit. unfold result_of, state_of, output_of. simpl.
    rewrite lookup_insert_eq.
    repeat split; auto.
    + intros H. destruct (Z.gtb_spec (v + amount) limit); [reflexivity | lia].
    + intros H. destruct (Z.gtb_spec (v + amount) limit); [lia | reflexivity].
  - assert (Hs : limit_was_set category calls = false).
    { destruct (limit_was_set category calls); [|reflexivity].
      destruct (proj2 Hset) as [? [=]]. auto. }
    rewrite Hs. split; [split; reflexivity|]. split; [reflexivity | discriminate].
Qed.

Lemma C7_add_expense_witness :
  add_expense "Rent" 10
      (after [call_set_budget_limit "Food" 2000; call_add_expense "Food" 1200]
             BudgetManager_init)
    = (after [call_set_budget_limit "Food" 2000; call_add_expense "Food" 1200]
             BudgetManager_init, [], Raise UnknownCategory)
  /\ exists v limit,
      spent (after [call_set_budget_limit "Food" 2000; call_add_expense "Food" 1200]
                   BudgetManager_init) "Food" = Some v
      /\ v + 900 > limit
      /\ output_of
           (add_expense "Food" 900
              (after [call_set_budget_limit "Food" 2000; call_add_expense "Food" 1200]
                     BudgetManager_init))
         = [warning "Food"].
Proof.
  split.
  - apply (proj1 (proj2 (C7_add_expense
             [call_set_budget_limit "Food" 2000; call_add_expense "Food" 1200]
             "Rent" 10))).
    reflexivity.
  - destruct (proj2 (proj2 (C7_add_expense
               [call_set_budget_limit "Food" 2000; call_add_expense "Food" 1200]
               "Food" 900)) eq_refl)
      as (v & limit & Hv & Hl & _ & _ & _ & Hwarn & _).
    exists v, limit. split; [exact Hv|].
    assert (Hgt : v + 900 > limit).
    { vm_compute in Hv, Hl. injection Hv as <-. injection Hl as <-. reflexivity. }
    split; [exact Hgt | exact (Hwarn Hgt)].
Defined.

(** C6 (as the code has it): across any sequence of calls that neither
    sets the limit of a category again nor adds a negative amount to it,
    the category's spend counter does not decrease; and
    [set_budget_limit] puts the counter of its category back to 0, leaving
    the counters of the other categories as they were. *)
Theorem C6_spend_counter (bm : BudgetManager) (category : string) :
  (forall calls v,
     spent bm category = Some v ->
     limit_was_set category calls = false ->
     no_negative_expense category calls = true ->
     exists v', spent (after calls bm) category = Some v' /\ v <= v')
  /\ (forall limit,
      spent (state_of (set_budget_limit category limit bm)) category = Some 0)
  /\ (forall limit category',
      category <> category' ->
      spent (state_of (set_budget_limit category limit bm)) category'
      = spent bm category').
Proof.
  split; [|split].
  - intros calls v. apply spent_monotone.
  - intros limit. unfold spent. rewrite set_budget_limit_eq.
    apply lookup_insert_eq.
  - intros limit category' Hne. unfold spent. rewrite set_budget_limit_eq.
    apply lookup_insert_ne, Hne.
Qed.

Lemma C6_spend_counter_witness :
  (exists v',
     spent (after [call_add_expense "Food" 900; call_set_budget_limit "Travel" 1500;
                   call_add_expense "Travel" (-10)]
                  (after [call_set_budget_limit "Food" 2000; call_add_expense "Food" 1200]
                         BudgetManager_init)) "Food" = Some v'
     /\ 1200 <= v')
  /\ spent (state_of (set_budget_limit "Food" 2000
                        (after [call_set_budget_limit "Food" 2000;
                                call_add_expense "Food" 1200] BudgetManager_init)))
           "Travel"
     = spent (after [call_set_budget_limit "Food" 2000; call_add_expense "Food" 1200]
                    BudgetManager_init) "Travel".
Proof.
  split.
  - apply (proj1 (C6_spend_counter
             (after [call_set_budget_limit "Food" 2000; call_add_expense "Food" 1200]
                    BudgetManager_init) "Food"));
      reflexivity.
  - apply (proj2 (proj2 (C6_spend_counter
             (after [call_set_budget_limit "Food" 2000; call_add_expense "Food" 1200]
                    BudgetManager_init) "Food"))).
    discriminate.
Defined.

(** C6 as stated fails: setting the limit of a category again resets its
    counter (1200 back to 0), and an expense with a negative amount, which
    [add_expense] accepts, lowers it (1200 to 700). *)
Lemma C6_counterexample :
  spent (after [call_set_budget_limit "Food" 2000; call_add_expense "Food" 1200]
               BudgetManager_init) "Food" = Some 1200
  /\ spent (after [call_set_budget_limit "Food" 2000; call_add_expense "Food" 1200;
                   call_set_budget_limit "Food" 2000] BudgetManager_init) "Food"
     = Some 0
  /\ spent (after [call_set_budget_limit "Food" 2000; call_add_expense "Food" 1200;
                   call_add_expense "Food" (-500)] BudgetManager_init) "Food"
     = Some 700
  /\ 0 < 1200 /\ 700 < 1200.
Proof. repeat split; reflexivity. Qed.

(** ** Further properties of the account classes *)

(** X1: [deposit] on an account of any class returns exactly when the
    amount is positive; it then adds the amount to the balance and changes
    nothing else -- neither the history, nor the identity fields, nor the
    floor, cap or counter of a subclass -- and otherwise raises
    InvalidAmount. *)
Theorem deposit_changes_only_balance (o : account) (amount : Z) :
  (result_of (deposit amount o) = Return tt <-> 0 < amount)
  /\ (result_of (deposit amount o) = Raise InvalidAmount <-> amount <= 0)
  /\ balance (state_of (deposit amount o))
     = (if amount <=? 0 then balance o else balance o + amount)
  /\ with_base (set_balance (balance o) (base (state_of (deposit amount o))))
               (state_of (deposit amount o)) = o.
Proof.
  rewrite deposit_eq. unfold result_of, state_of, balance.
  destruct (Z.leb_spec amount 0); simpl.
  - repeat split; try discriminate; try lia; auto.
    rewrite set_balance_id, with_base_base. reflexivity.
  - repeat split; try discriminate; try lia; auto.
    + rewrite base_with_base. reflexivity.
    + destruct o as [[]|[[] ?]|[[] ? ?]]; reflexivity.
Qed.

(** X2: [withdraw] on an account of any class returns exactly when the
    amount is positive, does not exceed the balance and passes the rule of
    the subclass. *)
Theorem withdraw_returns_iff (o : account) (amount : Z) :
  result_of (withdraw amount o) = Return tt
  <-> 0 < amount /\ amount <= balance o /\ violates_subclass_rule amount o = false.
Proof.
  rewrite withdraw_eq. unfold result_of.
  destruct (violates_subclass_rule amount o); simpl.
  { split; [discriminate | intros (_ & _ & [=])]. }
  destruct (Z.leb_spec amount 0); simpl; [split; [discriminate | lia]|].
  destruct (Z.gtb_spec amount (balance o)); simpl; [split; [discriminate | lia]|].
  destruct o; simpl; split; auto; lia.
Qed.

(** X3: a call of [deposit] or [withdraw] that raises, on an account of
    any class, leaves the object exactly as it was and prints nothing. *)
Theorem raising_call_changes_nothing (o : account) (amount : Z) (e : exn) :
  (result_of (deposit amount o) = Raise e -> deposit amount o = (o, [], Raise e))
  /\ (result_of (withdraw amount o) = Raise e -> withdraw amount o = (o, [], Raise e)).
Proof.
  split; intros H.
  - destruct (deposit amount o) as [[o' out] r] eqn:Hd.
    unfold result_of in H; simpl in H; subst r.
    destruct (deposit_outcome _ _ _ _ _ Hd) as [-> [(_ & _ & ->)|(? & _)]];
      [reflexivity | discriminate].
  - destruct (withdraw amount o) as [[o' out] r] eqn:Hw.
    unfold result_of in H; simpl in H; subst r.
    destruct (withdraw_outcome _ _ _ _ _ Hw) as [-> [(e' & _ & ->)|(? & _)]];
      [reflexivity | discriminate].
Qed.

Lemma raising_call_changes_nothing_witness :
  withdraw 4001 (a_saving (SavingAccount_init 1 5000 "pass1" "Ane" 1000))
  = (a_saving (SavingAccount_init 1 5000 "pass1" "Ane" 1000), [],
     Raise MinimumBalanceViolation).
Proof.
  apply (proj2 (raising_call_changes_nothing
                  (a_saving (SavingAccount_init 1 5000 "pass1" "Ane" 1000)) 4001
                  MinimumBalanceViolation)).
  reflexivity.
Defined.

(** X4: a withdrawal that succeeds is undone by a deposit of the same
    amount: the deposit cannot fail, balance and history are back to what
    they were, and a base Account or SavingAccount is the very same object
    again (an ExpensesAccount keeps its counter raised). *)
Theorem withdraw_then_deposit (o : account) (amount : Z) :
  result_of (withdraw amount o) = Return tt ->
  exists o',
    (withdraw amount;; deposit amount) o = (o', [], Return tt)
    /\ balance o' = balance o
    /\ history o' = history o
    /\ ((forall e, o <> a_expenses e) -> o' = o).
Proof.
  intros Hr.
  destruct (withdraw amount o) as [[o1 out1] r1] eqn:Hw.
  unfold result_of in Hr; simpl in Hr; subst r1.
  destruct (withdraw_outcome _ _ _ _ _ Hw)
    as [-> [(e & ? & _)|(_ & [Hpos Hle] & Hrule & Hb1 & Hh1)]]; [discriminate|].
  pose proof (deposit_eq amount o1) as Hd.
  destruct (Z.leb_spec amount 0); [lia|].
  eexists. unfold mbind, Py_bind. rewrite Hw, Hd. simpl.
  split; [reflexivity|].
  unfold balance, history in *. rewrite base_with_base. simpl.
  split; [lia|]. split; [exact Hh1|].
  intros Hne. rewrite withdraw_eq, Hrule in Hw. unfold balance in Hw.
  destruct (Z.leb_spec amount 0); [lia|].
  destruct (Z.gtb_spec amount (_balance (base o))); [lia|].
  destruct o as [a|s|e]; [| |destruct (Hne e eq_refl)];
    injection Hw as <-; simpl.
  - replace (_balance a - amount + amount) with (_balance a) by lia.
    destruct a; reflexivity.
  - replace (_balance (saving_base s) - amount + amount)
      with (_balance (saving_base s)) by lia.
    destruct s as [[] ?]; reflexivity.
Qed.

Lemma withdraw_then_deposit_witness :
  exists o',
    (withdraw 4000;; deposit 4000)
      (a_saving (SavingAccount_init 1 5000 "pass1" "Ane" 1000)) = (o', [], Return tt)
    /\ balance o' = balance (a_saving (SavingAccount_init 1 5000 "pass1" "Ane" 1000))
    /\ history o' = history (a_saving (SavingAccount_init 1 5000 "pass1" "Ane" 1000))
    /\ ((forall e, a_saving (SavingAccount_init 1 5000 "pass1" "Ane" 1000)
                   <> a_expenses e)
        -> o' = a_saving (SavingAccount_init 1 5000 "pass1" "Ane" 1000)).
Proof.
  apply (withdraw_then_deposit
           (a_saving (SavingAccount_init 1 5000 "pass1" "Ane" 1000)) 4000).
  reflexivity.
Defined.

(** *** Invariants of a sequence of calls on one account *)

Lemma same_policy_refl (o : account) : same_policy o o.
Proof. destruct o; simpl; auto. split; [reflexivity | lia]. Qed.

Lemma same_policy_trans (o1 o2 o3 : account) :
  same_policy o1 o2 -> same_policy o2 o3 -> same_policy o1 o3.
Proof.
  destruct o1, o2, o3; simpl; try tauto; try congruence.
  intros [-> H1] [-> H2]. split; [reflexivity | lia].
Qed.

Lemma evolves_refl (o : account) : evolves o o.
Proof.
  unfold evolves, same_identity. split; [apply same_policy_refl | tauto].
Qed.

Lemma evolves_trans (o1 o2 o3 : account) :
  evolves o1 o2 -> evolves o2 o3 -> evolves o1 o3.
Proof.
  unfold evolves, same_identity.
  intros (P1 & (I1 & I1' & I1'') & N1 & F1 & C1) (P2 & (I2 & I2' & I2'') & N2 & F2 & C2).
  split; [eapply same_policy_trans; eauto|].
  split; [repeat split; congruence|]. auto.
Qed.

Lemma deposit_evolves (amount : Z) (o : account) :
  evolves o (state_of (deposit amount o)).
Proof.
  rewrite deposit_eq. destruct (Z.leb_spec amount 0); [apply evolves_refl|].
  unfold state_of, evolves, same_identity, balance. simpl.
  rewrite base_with_base. simpl.
  destruct o as [a|s|e]; simpl; repeat split; auto; lia.
Qed.

Lemma withdraw_evolves (amount : Z) (o : account) :
  evolves o (state_of (withdraw amount o)).
Proof.
  rewrite withdraw_eq.
  destruct (violates_subclass_rule amount o) eqn:Hrule; [apply evolves_refl|].
  destruct (Z.leb_spec amount 0); [apply evolves_refl|].
  destruct (Z.gtb_spec amount (balance o)); [apply evolves_refl|].
  unfold state_of, evolves, same_identity, balance in *.
  destruct o as [a|s|e]; simpl in *; repeat split; auto; try lia.
Qed.

Lemma add_transaction_evolves (t : transaction) (o : account) :
  evolves o (state_of (add_transaction t o)).
Proof.
  rewrite add_transaction_eq.
  unfold state_of, evolves, same_identity, balance. simpl.
  rewrite base_with_base. simpl.
  destruct o as [a|s|e]; simpl; repeat split; auto; lia.
Qed.

Lemma perform_on_evolves (c : account_call) (o : account) :
  evolves o (state_of (perform_on c o)).
Proof.
  destruct c; simpl;
    [apply deposit_evolves | apply withdraw_evolves | apply add_transaction_evolves].
Qed.

Lemma after_calls_on_evolves (calls : list account_call) (o : account) :
  evolves o (after_calls_on calls o).
Proof.
  revert o. induction calls as [|c calls IH]; intros o; [apply evolves_refl|].
  simpl. eapply evolves_trans; [apply perform_on_evolves | apply IH].
Qed.

(** X5: an account of any class whose balance is not negative never gets a
    negative balance, whatever deposits, withdrawals and history records
    are attempted on it and whichever of them fail. *)
Theorem balance_never_negative (calls : list account_call) (o : account) :
  0 <= balance o -> 0 <= balance (after_calls_on calls o).
Proof. apply (after_calls_on_evolves calls o). Qed.

Lemma balance_never_negative_witness :
  0 <= balance (after_calls_on [call_withdraw 4000; call_withdraw 4000;
                                call_deposit (-3); call_withdraw 1]
                  (a_base (Account_init 1 5000 "pw" "Ane"))).
Proof.
  apply (balance_never_negative
           [call_withdraw 4000; call_withdraw 4000; call_deposit (-3); call_withdraw 1]
           (a_base (Account_init 1 5000 "pw" "Ane"))).
  unfold balance. simpl. lia.
Defined.

(** X6: a SavingAccount that is at or above its floor stays a
    SavingAccount with the same floor and at or above it, across any
    sequence of deposits, withdrawals and history records. *)
Theorem saving_floor_invariant (calls : list account_call) (s : SavingAccount) :
  min_balance s <= _balance (saving_base s) ->
  exists s',
    after_calls_on calls (a_saving s) = a_saving s'
    /\ min_balance s' = min_balance s
    /\ min_balance s' <= _balance (saving_base s').
Proof.
  intros H.
  destruct (after_calls_on_evolves calls (a_saving s)) as (P & _ & _ & F & _).
  destruct (after_calls_on calls (a_saving s)) as [a|s'|e]; simpl in P; try tauto.
  exists s'. split; [reflexivity|]. split; [exact P|]. apply F, H.
Qed.

Lemma saving_floor_invariant_witness :
  exists s',
    after_calls_on [call_withdraw 4500; call_deposit 200; call_withdraw 4100]
                   (a_saving (SavingAccount_init 1 5000 "pass1" "Ane" 1000))
    = a_saving s'
    /\ min_balance s' = min_balance (SavingAccount_init 1 5000 "pass1" "Ane" 1000)
    /\ min_balance s' <= _balance (saving_base s').
Proof.
  apply (saving_floor_invariant
           [call_withdraw 4500; call_deposit 200; call_withdraw 4100]
           (SavingAccount_init 1 5000 "pass1" "Ane" 1000)).
  simpl. lia.
Defined.

(** X7: across any sequence of deposits, withdrawals and history records an
    ExpensesAccount stays an ExpensesAccount with the same [month_limit],
    its [monthly_withdraw] counter never goes down (nothing resets it, a
    deposit does not give allowance back), and a counter within the limit
    stays within the limit. *)
Theorem expenses_counter_invariant (calls : list account_call) (e : ExpensesAccount) :
  exists e',
    after_calls_on calls (a_expenses e) = a_expenses e'
    /\ month_limit e' = month_limit e
    /\ monthly_withdraw e <= monthly_withdraw e'
    /\ (monthly_withdraw e <= month_limit e -> monthly_withdraw e' <= month_limit e').
Proof.
  destruct (after_calls_on_evolves calls (a_expenses e)) as (P & _ & _ & _ & C).
  destruct (after_calls_on calls (a_expenses e)) as [a|s|e']; simpl in P; try tauto.
  exists e'. destruct P as [P1 P2]. repeat split; auto.
Qed.

(** A single withdrawal on an ExpensesAccount moves money from the balance
    to the counter or does nothing. *)
Lemma expenses_withdraw_conserves (amount : Z) (e : ExpensesAccount) :
  exists e',
    state_of (withdraw amount (a_expenses e)) = a_expenses e'
    /\ _balance (expenses_base e') + monthly_withdraw e'
       = _balance (expenses_base e) + monthly_withdraw e.
Proof.
  rewrite withdraw_eq. unfold balance. simpl.
  destruct (_ >? month_limit e); [eauto|].
  destruct (amount <=? 0); [eauto|].
  destruct (amount >? _); [eauto|].
  eexists. split; [reflexivity|]. simpl. lia.
Qed.

(** X8: over any sequence of withdrawals on an ExpensesAccount, whichever
    succeed, what has left the balance is exactly what has been added to
    the [monthly_withdraw] counter: balance plus counter is constant. *)
Theorem expenses_withdrawals_are_counted (amounts : list Z) (e : ExpensesAccount) :
  exists e',
    after_calls_on (map call_withdraw amounts) (a_expenses e) = a_expenses e'
    /\ _balance (expenses_base e') + monthly_withdraw e'
       = _balance (expenses_base e) + monthly_withdraw e.
Proof.
  revert e. induction amounts as [|amount amounts IH]; intros e; [eauto|].
  change (after_calls_on (map call_withdraw (amount :: amounts)) (a_expenses e))
    with (after_calls_on (map call_withdraw amounts)
            (state_of (withdraw amount (a_expenses e)))).
  destruct (expenses_withdraw_conserves amount e) as (e1 & -> & H1).
  destruct (IH e1) as (e' & He' & H'). exists e'. split; [exact He' | lia].
Qed.

Lemma records_of_cons (c : account_call) (calls : list account_call) :
  records_of (c :: calls) =
    match c with call_add_transaction t => t :: records_of calls | _ => records_of calls end.
Proof. destruct c; reflexivity. Qed.

(** X9: the history of an account is append-only and holds exactly what
    [add_transaction] recorded, in order: deposits and withdrawals,
    successful or not, never touch it, and [get_transactions] returns it
    without changing the object. *)
Theorem history_is_what_was_recorded (calls : list account_call) (o : account) :
  get_transactions (after_calls_on calls o)
  = (after_calls_on calls o, [], Return (history o ++ records_of calls)).
Proof.
  assert (H : history (after_calls_on calls o) = history o ++ records_of calls).
  { revert o. induction calls as [|c calls IH]; intros o.
    - simpl. rewrite app_nil_r. reflexivity.
    - simpl after_calls_on. rewrite IH, records_of_cons.
      destruct c as [amount|amount|t]; simpl perform_on.
      + destruct (deposit amount o) as [[o1 out] r] eqn:Hd.
        destruct (deposit_outcome _ _ _ _ _ Hd) as [_ [(_ & _ & ->)|(_ & _ & _ & Hh)]];
          unfold state_of; simpl; congruence.
      + destruct (withdraw amount o) as [[o1 out] r] eqn:Hw.
        destruct (withdraw_outcome _ _ _ _ _ Hw)
          as [_ [(e & _ & ->)|(_ & _ & _ & _ & Hh)]];
          unfold state_of; simpl; congruence.
      + destruct (add_transaction t o) as [[o1 out] r] eqn:Ha.
        destruct (add_transaction_outcome _ _ _ _ _ Ha) as (_ & _ & _ & Hh).
        unfold state_of; simpl. rewrite Hh, <- app_assoc. reflexivity. }
  unfold get_transactions, inherited, zoom, Account_get_transactions. run.
  rewrite with_base_base. unfold history in H. rewrite H. reflexivity.
Qed.

(** X10: after [set_password(p)], [check_password(q)] answers whether
    [q = p] and changes nothing, also after any sequence of deposits,
    withdrawals and history records: none of them touches the password. *)
Theorem password_round_trip (p q : string) (calls : list account_call) (o : account) :
  check_password q (after_calls_on calls (state_of (set_password p o)))
  = (after_calls_on calls (state_of (set_password p o)), [],
     Return (bool_decide (p = q))).
Proof.
  destruct (after_calls_on_evolves calls (state_of (set_password p o)))
    as (_ & (_ & _ & Hpw) & _).
  unfold check_password, inherited, zoom, Account_check_password. run.
  rewrite with_base_base, Hpw.
  unfold set_password, inherited, zoom, Account_set_password, state_of. run.
  rewrite base_with_base. reflexivity.
Qed.

(** ** Further properties of transaction processing *)

Lemma insert_same_dom (h : store) (r : ref) (o o' : account) :
  h !! r = Some o -> dom (<[r := o']> h) = dom h.
Proof.
  intros H. rewrite dom_insert_L.
  apply subseteq_union_1_L, singleton_subseteq_l, elem_of_dom. eauto.
Qed.

Lemma validate_income_eq (amount : Z) (h : store) :
  IncomeTransaction_validate amount h =
    if amount <=? 0 then (h, [], Raise InvalidAmount) else (h, [], Return tt).
Proof. unfold IncomeTransaction_validate. destruct (amount <=? 0); reflexivity. Qed.

Lemma validate_expense_eq (amount : Z) (h : store) :
  ExpenseTransaction_validate amount h =
    if amount <=? 0 then (h, [], Raise InvalidAmount) else (h, [], Return tt).
Proof. unfold ExpenseTransaction_validate. destruct (amount <=? 0); reflexivity. Qed.

Lemma income_invalid (r : ref) (amount : Z) (h : store) :
  amount <= 0 ->
  IncomeTransaction_process_transaction r amount h = (h, [], Raise InvalidAmount).
Proof.
  intros H. unfold IncomeTransaction_process_transaction, mbind, Py_bind.
  rewrite validate_income_eq. destruct (Z.leb_spec amount 0); [reflexivity | lia].
Qed.

Lemma income_returns (r : ref) (amount : Z) (h : store) (a : account) :
  0 < amount -> h !! r = Some a ->
  exists a',
    IncomeTransaction_process_transaction r amount h = (<[r := a']> h, [], Return tt)
    /\ balance a' = balance a + amount
    /\ history a' = history a ++ [IncomeTransaction r amount].
Proof.
  intros Hpos Ha.
  destruct (deposit amount a) as [[a1 out1] r1] eqn:Hd.
  destruct (deposit_outcome _ _ _ _ _ Hd) as [-> [(_ & ? & _)|(-> & _ & Hb1 & Hh1)]];
    [lia|].
  destruct (add_transaction (IncomeTransaction r amount) a1) as [[a2 out2] r2] eqn:Hadd.
  destruct (add_transaction_outcome _ _ _ _ _ Hadd) as (-> & -> & Hb2 & Hh2).
  exists a2. split; [|split; congruence].
  unfold IncomeTransaction_process_transaction, mbind, Py_bind.
  rewrite validate_income_eq. destruct (Z.leb_spec amount 0); [lia|].
  unfold on. rewrite Ha, Hd, lookup_insert_eq, Hadd, insert_insert_eq. reflexivity.
Qed.

Lemma expense_invalid (r : ref) (amount : Z) (h : store) :
  amount <= 0 ->
  ExpenseTransaction_process_transaction r amount h = (h, [], Raise InvalidAmount).
Proof.
  intros H. unfold ExpenseTransaction_process_transaction, mbind, Py_bind.
  rewrite validate_expense_eq. destruct (Z.leb_spec amount 0); [reflexivity | lia].
Qed.

Lemma expense_raises (r : ref) (amount : Z) (h : store) (a : account) (e : exn) :
  0 < amount -> h !! r = Some a ->
  result_of (withdraw amount a) = Raise e ->
  ExpenseTransaction_process_transaction r amount h = (h, [], Raise e).
Proof.
  intros Hpos Ha Hr.
  destruct (withdraw amount a) as [[a' out] res] eqn:Hw.
  unfold result_of in Hr; simpl in Hr; subst res.
  destruct (withdraw_outcome _ _ _ _ _ Hw) as [-> [(e' & _ & ->)|(? & _)]];
    [|discriminate].
  unfold ExpenseTransaction_process_transaction, mbind, Py_bind.
  rewrite validate_expense_eq. destruct (Z.leb_spec amount 0); [lia|].
  rewrite (on_unchanged _ _ _ _ _ _ Ha Hw). reflexivity.
Qed.

Lemma expense_returns (r : ref) (amount : Z) (h : store) (a : account) :
  0 < amount -> h !! r = Some a ->
  result_of (withdraw amount a) = Return tt ->
  exists a',
    ExpenseTransaction_process_transaction r amount h = (<[r := a']> h, [], Return tt)
    /\ balance a' = balance a - amount
    /\ history a' = history a ++ [ExpenseTransaction r amount].
Proof.
  intros Hpos Ha Hr.
  destruct (withdraw amount a) as [[a1 out1] r1] eqn:Hw.
  unfold result_of in Hr; simpl in Hr; subst r1.
  destruct (withdraw_outcome _ _ _ _ _ Hw)
    as [-> [(e & ? & _)|(_ & _ & _ & Hb1 & Hh1)]]; [discriminate|].
  destruct (add_transaction (ExpenseTransaction r amount) a1) as [[a2 out2] r2] eqn:Hadd.
  destruct (add_transaction_outcome _ _ _ _ _ Hadd) as (-> & -> & Hb2 & Hh2).
  exists a2. split; [|split; congruence].
  unfold ExpenseTransaction_process_transaction, mbind, Py_bind.
  rewrite validate_expense_eq. destruct (Z.leb_spec amount 0); [lia|].
  unfold on. rewrite Ha, Hw, lookup_insert_eq, Hadd, insert_insert_eq. reflexivity.
Qed.

Lemma transfer_invalid (src dst : ref) (amount : Z) (h : store) :
  amount <= 0 ->
  TransferTransaction_process_transaction src dst amount h
  = (h, [], Raise InvalidAmount).
Proof.
  intros H. unfold TransferTransaction_process_transaction, mbind, Py_bind.
  rewrite validate_transfer_eq. destruct (Z.leb_spec amount 0); [reflexivity | lia].
Qed.

Lemma transfer_raises (src dst : ref) (amount : Z) (h : store) (a : account) (e : exn) :
  0 < amount -> h !! src = Some a ->
  result_of (withdraw amount a) = Raise e ->
  TransferTransaction_process_transaction src dst amount h = (h, [], Raise e).
Proof.
  intros Hpos Ha Hr.
  destruct (withdraw amount a) as [[a' out] res] eqn:Hw.
  unfold result_of in Hr; simpl in Hr; subst res.
  destruct (withdraw_outcome _ _ _ _ _ Hw) as [-> [(e' & _ & ->)|(? & _)]];
    [|discriminate].
  unfold TransferTransaction_process_transaction, mbind, Py_bind.
  rewrite validate_transfer_eq. destruct (Z.leb_spec amount 0); [lia|].
  rewrite (on_unchanged _ _ _ _ _ _ Ha Hw). reflexivity.
Qed.

(** X11: an IncomeTransaction with a non-positive amount raises
    InvalidAmount and changes nothing; with a positive amount on an
    existing account it always returns, the account's balance is increased
    by exactly the amount, the transaction is appended to its history and
    no other account is touched. *)
Theorem income_transaction (h : store) (r : ref) (amount : Z) :
  (amount <= 0 ->
     process_transaction (IncomeTransaction r amount) h = (h, [], Raise InvalidAmount))
  /\ (forall a, 0 < amount -> h !! r = Some a ->
      exists a',
        process_transaction (IncomeTransaction r amount) h
        = (<[r := a']> h, [], Return tt)
        /\ balance a' = balance a + amount
        /\ history a' = history a ++ [IncomeTransaction r amount]).
Proof.
  split; [apply income_invalid | intros a; apply income_returns].
Qed.

Lemma income_transaction_witness :
  process_transaction (IncomeTransaction acc1 0) main_store
    = (main_store, [], Raise InvalidAmount)
  /\ exists a',
      process_transaction (IncomeTransaction acc1 2000) main_store
      = (<[acc1 := a']> main_store, [], Return tt)
      /\ balance a' = balance (a_saving (SavingAccount_init 1 5000 "pass1" "Ane" 1000))
                      + 2000
      /\ history a' = history (a_saving (SavingAccount_init 1 5000 "pass1" "Ane" 1000))
                      ++ [IncomeTransaction acc1 2000].
Proof.
  split.
  - apply (proj1 (income_transaction main_store acc1 0)). lia.
  - apply (proj2 (income_transaction main_store acc1 2000)); [lia | reflexivity].
Defined.

(** X12: an ExpenseTransaction is all or nothing.  With a non-positive
    amount it raises InvalidAmount; when the account's [withdraw] rejects
    the amount it raises that error; in both cases the store is unchanged
    and nothing is recorded.  When [withdraw] accepts, it returns, the
    balance is decreased by exactly the amount, the transaction is appended
    to the history and no other account is touched. *)
Theorem expense_transaction (h : store) (r : ref) (amount : Z) :
  (amount <= 0 ->
     process_transaction (ExpenseTransaction r amount) h = (h, [], Raise InvalidAmount))
  /\ (forall a e, 0 < amount -> h !! r = Some a ->
      result_of (withdraw amount a) = Raise e ->
      process_transaction (ExpenseTransaction r amount) h = (h, [], Raise e))
  /\ (forall a, 0 < amount -> h !! r = Some a ->
      result_of (withdraw amount a) = Return tt ->
      exists a',
        process_transaction (ExpenseTransaction r amount) h
        = (<[r := a']> h, [], Return tt)
        /\ balance a' = balance a - amount
        /\ history a' = history a ++ [ExpenseTransaction r amount]).
Proof.
  split; [apply expense_invalid|].
  split; [intros a e; apply expense_raises | intros a; apply expense_returns].
Qed.

Lemma expense_transaction_witness :
  process_transaction (ExpenseTransaction acc1 4001) main_store
    = (main_store, [], Raise MinimumBalanceViolation)
  /\ exists a',
      process_transaction (ExpenseTransaction acc1 500) main_store
      = (<[acc1 := a']> main_store, [], Return tt)
      /\ balance a' = balance (a_saving (SavingAccount_init 1 5000 "pass1" "Ane" 1000))
                      - 500
      /\ history a' = history (a_saving (SavingAccount_init 1 5000 "pass1" "Ane" 1000))
                      ++ [ExpenseTransaction acc1 500].
Proof.
  split.
  - apply (proj1 (proj2 (expense_transaction main_store acc1 4001))
             (a_saving (SavingAccount_init 1 5000 "pass1" "Ane" 1000)));
      [lia | reflexivity | reflexivity].
  - apply (proj2 (proj2 (expense_transaction main_store acc1 500)));
      [lia | reflexivity | reflexivity].
Defined.

(** *** What processing a list of transactions keeps

    A relation between the old and the new object at each reference that is
    reflexive, transitive and kept by the three methods a transaction
    calls, is kept by [process_transaction] whatever its outcome, and so by
    [process_all]. *)
Section StoreRelation.

Variable ts : list transaction.
Variable Q : ref -> account -> account -> Prop.

Hypothesis Q_refl : forall r o, Q r o o.
Hypothesis Q_trans : forall r o1 o2 o3, Q r o1 o2 -> Q r o2 o3 -> Q r o1 o3.
Hypothesis Q_deposit : forall t r o,
  t ∈ ts -> r ∈ accounts_of t -> Q r o (state_of (deposit (amount_of t) o)).
Hypothesis Q_withdraw : forall t r o,
  t ∈ ts -> r ∈ accounts_of t -> Q r o (state_of (withdraw (amount_of t) o)).
Hypothesis Q_add_transaction : forall t r o,
  t ∈ ts -> r ∈ accounts_of t -> 0 < amount_of t ->
  Q r o (state_of (add_transaction t o)).

Lemma store_rel_refl (h : store) : store_rel Q h h.
Proof. intros r. destruct (h !! r); constructor. apply Q_refl. Qed.

Lemma store_rel_trans (h1 h2 h3 : store) :
  store_rel Q h1 h2 -> store_rel Q h2 h3 -> store_rel Q h1 h3.
Proof.
  intros H1 H2 r. specialize (H1 r). specialize (H2 r).
  destruct H1 as [o1 o2 H12|]; inversion H2; subst; constructor.
  eapply Q_trans; eauto.
Qed.

Lemma on_rel {A} (r : ref) (m : Py account A) (h : store) :
  (forall o, Q r o (state_of (m o))) -> store_rel Q h (state_of (on r m h)).
Proof.
  intros Hm. unfold on. destruct (h !! r) as [o|] eqn:Hr; [|apply store_rel_refl].
  specialize (Hm o). destruct (m o) as [[o' out] res]. unfold state_of in *; simpl in *.
  intros r'. destruct (decide (r = r')) as [<-|Hne].
  - rewrite lookup_insert_eq, Hr. constructor. exact Hm.
  - rewrite lookup_insert_ne by exact Hne. apply store_rel_refl.
Qed.

Lemma bind_rel {A B} (m : Py store A) (k : A -> Py store B) (h : store) :
  store_rel Q h (state_of (m h)) ->
  (forall a, result_of (m h) = Return a ->
             store_rel Q (state_of (m h)) (state_of (k a (state_of (m h))))) ->
  store_rel Q h (state_of ((m ≫= k) h)).
Proof.
  unfold mbind, Py_bind, state_of, result_of.
  destruct (m h) as [[s1 o1] [a|e]]; simpl; [|auto].
  intros H1 H2. specialize (H2 a eq_refl).
  destruct (k a s1) as [[s2 o2] r]. simpl in *. eapply store_rel_trans; eauto.
Qed.

Lemma process_transaction_rel (t : transaction) (h : store) :
  t ∈ ts -> store_rel Q h (state_of (process_transaction t h)).
Proof.
  intros Ht. destruct t as [r amount|r amount|src dst amount]; simpl.
  - unfold IncomeTransaction_process_transaction.
    apply bind_rel.
    { rewrite validate_income_eq. destruct (amount <=? 0); apply store_rel_refl. }
    intros [] Hv. rewrite validate_income_eq in *.
    destruct (Z.leb_spec amount 0); [discriminate|]. unfold state_of at 1 3; simpl.
    apply bind_rel; [|intros [] _].
    + apply on_rel. intros o.
      apply (Q_deposit (IncomeTransaction r amount)); [exact Ht | left].
    + apply on_rel. intros o.
      apply (Q_add_transaction (IncomeTransaction r amount)); [exact Ht | left | exact H].
  - unfold ExpenseTransaction_process_transaction.
    apply bind_rel.
    { rewrite validate_expense_eq. destruct (amount <=? 0); apply store_rel_refl. }
    intros [] Hv. rewrite validate_expense_eq in *.
    destruct (Z.leb_spec amount 0); [discriminate|]. unfold state_of at 1 3; simpl.
    apply bind_rel; [|intros [] _].
    + apply on_rel. intros o.
      apply (Q_withdraw (ExpenseTransaction r amount)); [exact Ht | left].
    + apply on_rel. intros o.
      apply (Q_add_transaction (ExpenseTransaction r amount)); [exact Ht | left | exact H].
  - unfold TransferTransaction_process_transaction.
    apply bind_rel.
    { rewrite validate_transfer_eq. destruct (amount <=? 0); apply store_rel_refl. }
    intros [] Hv. rewrite validate_transfer_eq in *.
    destruct (Z.leb_spec amount 0); [discriminate|]. unfold state_of at 1 3; simpl.
    apply bind_rel; [|intros [] _; apply bind_rel; [|intros [] _; apply bind_rel;
                                                       [|intros [] _]]].
    + apply on_rel. intros o.
      apply (Q_withdraw (TransferTransaction src dst amount)); [exact Ht | left].
    + apply on_rel. intros o.
      apply (Q_deposit (TransferTransaction src dst amount));
        [exact Ht | right; left].
    + apply on_rel. intros o.
      apply (Q_add_transaction (TransferTransaction src dst amount));
        [exact Ht | left | exact H].
    + apply on_rel. intros o.
      apply (Q_add_transaction (TransferTransaction src dst amount));
        [exact Ht | right; left | exact H].
Qed.

Lemma process_all_rel (ts' : list transaction) (h : store) :
  (forall t, t ∈ ts' -> t ∈ ts) -> store_rel Q h (process_all ts' h).
Proof.
  revert h. induction ts' as [|t ts' IH]; intros h Hsub; [apply store_rel_refl|].
  simpl. eapply store_rel_trans.
  - apply process_transaction_rel, Hsub. left.
  - apply IH. intros t' Ht'. apply Hsub. right. exact Ht'.
Qed.

End StoreRelation.

Lemma store_rel_lookup (Q : ref -> account -> account -> Prop) (h h' : store) r o :
  store_rel Q h h' -> h !! r = Some o -> exists o', h' !! r = Some o' /\ Q r o o'.
Proof.
  intros H Hr. specialize (H r). rewrite Hr in H. inversion H; subst. eauto.
Qed.

Lemma store_rel_dom (Q : ref -> account -> account -> Prop) (h h' : store) :
  store_rel Q h h' -> dom h' = dom h.
Proof.
  intros H. apply set_eq. intros r. rewrite !elem_of_dom. specialize (H r).
  destruct H; split; intros [? [=]]; eauto.
Qed.

Lemma process_all_evolves (ts : list transaction) (h : store) :
  store_rel (fun _ => evolves) h (process_all ts h).
Proof.
  apply (process_all_rel ts); [| | | | |auto].
  - intros _ o. apply evolves_refl.
  - intros _ o1 o2 o3. apply evolves_trans.
  - intros t _ o _ _. apply deposit_evolves.
  - intros t _ o _ _. apply withdraw_evolves.
  - intros t _ o _ _ _. apply add_transaction_evolves.
Qed.

(** X13: whatever list of transactions is processed, and whichever of
    them fail, an account whose balance was not negative does not get a
    negative balance, a SavingAccount at or above its floor stays at or
    above it, and an ExpensesAccount whose counter was within its cap stays
    within it. *)
Theorem transactions_respect_account_rules
    (ts : list transaction) (h : store) (r : ref) (o : account) :
  h !! r = Some o ->
  exists o',
    process_all ts h !! r = Some o'
    /\ (0 <= balance o -> 0 <= balance o')
    /\ (above_floor o -> above_floor o')
    /\ (within_cap o -> within_cap o').
Proof.
  intros Hr.
  destruct (store_rel_lookup _ _ _ _ _ (process_all_evolves ts h) Hr)
    as (o' & Ho' & _ & _ & N & F & C).
  exists o'. auto.
Qed.

Lemma transactions_respect_account_rules_witness :
  exists o',
    process_all [ExpenseTransaction acc1 4500; TransferTransaction acc1 acc2 3000;
                 TransferTransaction acc2 acc1 2500] main_store !! acc1 = Some o'
    /\ (0 <= balance (a_saving (SavingAccount_init 1 5000 "pass1" "Ane" 1000))
        -> 0 <= balance o')
    /\ (above_floor (a_saving (SavingAccount_init 1 5000 "pass1" "Ane" 1000))
        -> above_floor o')
    /\ (within_cap (a_saving (SavingAccount_init 1 5000 "pass1" "Ane" 1000))
        -> within_cap o').
Proof.
  apply (transactions_respect_account_rules
           [ExpenseTransaction acc1 4500; TransferTransaction acc1 acc2 3000;
            TransferTransaction acc2 acc1 2500] main_store acc1).
  reflexivity.
Defined.

(** X14: processing transactions neither creates nor removes accounts,
    and never changes the class of an account, the floor of a
    SavingAccount, the cap of an ExpensesAccount (whose counter never goes
    down), or the id, holder and password of any account. *)
Theorem transactions_keep_accounts (ts : list transaction) (h : store) :
  dom (process_all ts h) = dom h
  /\ (forall r o, h !! r = Some o ->
      exists o',
        process_all ts h !! r = Some o' /\ same_policy o o' /\ same_identity o o').
Proof.
  split; [apply (store_rel_dom _ _ _ (process_all_evolves ts h))|].
  intros r o Hr.
  destruct (store_rel_lookup _ _ _ _ _ (process_all_evolves ts h) Hr)
    as (o' & Ho' & P & I & _).
  exists o'. auto.
Qed.

(** X15: processing a list of transactions only ever appends to an
    account's history, and every record appended is a transaction of that
    list which refers to the account and has a positive amount: a history
    never loses a record and never shows a transaction that was not
    processed. *)
Theorem histories_record_processed_transactions
    (ts : list transaction) (h : store) (r : ref) (o : account) :
  h !! r = Some o ->
  exists o' new,
    process_all ts h !! r = Some o'
    /\ history o' = history o ++ new
    /\ Forall (fun t => t ∈ ts /\ r ∈ accounts_of t /\ 0 < amount_of t) new.
Proof.
  intros Hr.
  set (Q := fun (r : ref) (o o' : account) =>
              exists new, history o' = history o ++ new
                /\ Forall (fun t => t ∈ ts /\ r ∈ accounts_of t /\ 0 < amount_of t) new).
  assert (H : store_rel Q h (process_all ts h)).
  { apply (process_all_rel ts); [| | | | |auto]; unfold Q.
    - intros r0 o0. exists []. rewrite app_nil_r. auto.
    - intros r0 o1 o2 o3 (n1 & H1 & F1) (n2 & H2 & F2). exists (n1 ++ n2).
      rewrite H2, H1, app_assoc. split; [reflexivity | apply Forall_app; auto].
    - intros t r0 o0 _ _. exists []. rewrite app_nil_r.
      destruct (deposit (amount_of t) o0) as [[o1 out] res] eqn:Hd.
      destruct (deposit_outcome _ _ _ _ _ Hd) as [_ [(_ & _ & ->)|(_ & _ & _ & Hh)]];
        unfold state_of; simpl; auto.
    - intros t r0 o0 _ _. exists []. rewrite app_nil_r.
      destruct (withdraw (amount_of t) o0) as [[o1 out] res] eqn:Hw.
      destruct (withdraw_outcome _ _ _ _ _ Hw)
        as [_ [(e & _ & ->)|(_ & _ & _ & _ & Hh)]];
        unfold state_of; simpl; auto.
    - intros t r0 o0 Ht Hr0 Hpos. exists [t].
      destruct (add_transaction t o0) as [[o1 out] res] eqn:Ha.
      destruct (add_transaction_outcome _ _ _ _ _ Ha) as (_ & _ & _ & Hh).
      unfold state_of; simpl. split; [exact Hh|]. repeat constructor; auto. }
  destruct (store_rel_lookup _ _ _ _ _ H Hr) as (o' & Ho' & new & Hh & Hf).
  exists o', new. auto.
Qed.

Lemma histories_record_processed_transactions_witness :
  exists o' new,
    process_all [ExpenseTransaction acc1 4500; TransferTransaction acc1 acc2 1000]
                main_store !! acc1 = Some o'
    /\ history o' = history (a_saving (SavingAccount_init 1 5000 "pass1" "Ane" 1000))
                    ++ new
    /\ Forall (fun t => t ∈ [ExpenseTransaction acc1 4500;
                             TransferTransaction acc1 acc2 1000]
                        /\ acc1 ∈ accounts_of t /\ 0 < amount_of t) new.
Proof.
  apply (histories_record_processed_transactions
           [ExpenseTransaction acc1 4500; TransferTransaction acc1 acc2 1000]
           main_store acc1).
  reflexivity.
Defined.

(** X16: an account that none of the processed transactions refers to is
    left exactly as it was. *)
Theorem unrelated_accounts_untouched (ts : list transaction) (h : store) (r : ref) :
  (forall t, t ∈ ts -> r ∉ accounts_of t) ->
  process_all ts h !! r = h !! r.
Proof.
  intros Hfree.
  set (Q := fun (r0 : ref) (o o' : account) =>
              (forall t, t ∈ ts -> r0 ∉ accounts_of t) -> o' = o).
  assert (H : store_rel Q h (process_all ts h)).
  { apply (process_all_rel ts); unfold Q.
    - intros r0 o0 _. reflexivity.
    - intros r0 o1 o2 o3 H1 H2 Hf. rewrite (H2 Hf). apply H1, Hf.
    - intros t r0 o0 Ht Hr0 Hf. destruct (Hf t Ht Hr0).
    - intros t r0 o0 Ht Hr0 Hf. destruct (Hf t Ht Hr0).
    - intros t r0 o0 Ht Hr0 _ Hf. destruct (Hf t Ht Hr0).
    - auto. }
  specialize (H r). destruct H as [o o' HQ|]; [|reflexivity].
  rewrite (HQ Hfree). reflexivity.
Qed.

Lemma unrelated_accounts_untouched_witness :
  process_all [IncomeTransaction acc1 2000; ExpenseTransaction acc1 500]
              main_store !! acc2
  = main_store !! acc2.
Proof.
  apply (unrelated_accounts_untouched
           [IncomeTransaction acc1 2000; ExpenseTransaction acc1 500] main_store acc2).
  intros t Ht.
  apply elem_of_cons in Ht as [->|Ht]; [|apply elem_of_cons in Ht as [->|Ht]].
  - simpl. intros H. apply list_elem_of_singleton in H. discriminate H.
  - simpl. intros H. apply list_elem_of_singleton in H. discriminate H.
  - inversion Ht.
Defined.

(** X17: when every account a transaction refers to exists, processing it
    is all or nothing: if it raises, the error is a ValueError, nothing was
    printed and the store is exactly what it was -- no balance moved, no
    record added. *)
Theorem failed_transaction_changes_nothing (t : transaction) (h : store) (e : exn) :
  (forall r, r ∈ accounts_of t -> is_Some (h !! r)) ->
  result_of (process_transaction t h) = Raise e ->
  process_transaction t h = (h, [], Raise e) /\ exists msg, e = ValueError msg.
Proof.
  intros Hex Hr.
  assert (Hmsg : forall (a : account) amount e',
             result_of (withdraw amount a) = Raise e' -> exists msg, e' = ValueError msg).
  { intros a amount e'. rewrite withdraw_eq. unfold result_of.
    destruct (violates_subclass_rule amount a);
      [destruct a; intros [= <-]; eexists; reflexivity|].
    destruct (amount <=? 0); [intros [= <-]; eexists; reflexivity|].
    destruct (amount >? balance a); [intros [= <-]; eexists; reflexivity|].
    destruct a; discriminate. }
  destruct t as [r amount|r amount|src dst amount]; simpl in *.
  - destruct (Z_le_gt_dec amount 0) as [Hle|Hgt].
    + rewrite (income_invalid r amount h Hle) in *. injection Hr as <-.
      split; [reflexivity | eexists; reflexivity].
    + destruct (Hex r) as [a Ha]; [left|].
      destruct (income_returns r amount h a) as (a' & Hp & _); [lia | exact Ha|].
      rewrite Hp in Hr. discriminate Hr.
  - destruct (Z_le_gt_dec amount 0) as [Hle|Hgt].
    + rewrite (expense_invalid r amount h Hle) in *. injection Hr as <-.
      split; [reflexivity | eexists; reflexivity].
    + destruct (Hex r) as [a Ha]; [left|].
      destruct (result_of (withdraw amount a)) as [[]|e'] eqn:Hw.
      * destruct (expense_returns r amount h a) as (a' & Hp & _);
          [lia | exact Ha | exact Hw|].
        rewrite Hp in Hr. discriminate Hr.
      * rewrite (expense_raises r amount h a e') in * by (auto; lia).
        injection Hr as <-. split; [reflexivity | eapply Hmsg, Hw].
  - destruct (Z_le_gt_dec amount 0) as [Hle|Hgt].
    + rewrite (transfer_invalid src dst amount h Hle) in *. injection Hr as <-.
      split; [reflexivity | eexists; reflexivity].
    + destruct (Hex src) as [a Ha]; [left|].
      destruct (result_of (withdraw amount a)) as [[]|e'] eqn:Hw.
      * destruct (transfer_returns src dst amount h a) as (h' & Hp);
          [lia | exact Ha | apply Hex; right; left | exact Hw|].
        rewrite Hp in Hr. discriminate Hr.
      * rewrite (transfer_raises src dst amount h a e') in * by (auto; lia).
        injection Hr as <-. split; [reflexivity | eapply Hmsg, Hw].
Qed.

Lemma failed_transaction_changes_nothing_witness :
  process_transaction (TransferTransaction acc2 acc1 2500) main_store
    = (main_store, [], Raise MonthlyLimitExceeded)
  /\ exists msg, MonthlyLimitExceeded = ValueError msg.
Proof.
  apply (failed_transaction_changes_nothing
           (TransferTransaction acc2 acc1 2500) main_store MonthlyLimitExceeded).
  - intros r Hr. simpl in Hr.
    apply elem_of_cons in Hr as [->|Hr];
      [|apply list_elem_of_singleton in Hr as ->]; eexists; reflexivity.
  - reflexivity.
Defined.

(** X18: a transfer between two distinct existing accounts never creates
    or destroys money: whether it returns or raises, the sum of the two
    balances afterwards is the sum before. *)
Theorem transfer_conserves_money
    (h : store) (src dst : ref) (amount : Z) (a b : account) :
  src <> dst -> h !! src = Some a -> h !! dst = Some b ->
  exists a' b',
    state_of (process_transaction (TransferTransaction src dst amount) h) !! src
    = Some a'
    /\ state_of (process_transaction (TransferTransaction src dst amount) h) !! dst
      = Some b'
    /\ balance a' + balance b' = balance a + balance b.
Proof.
  intros Hne Ha Hb. simpl.
  destruct (Z_le_gt_dec amount 0) as [Hle|Hgt].
  { rewrite (transfer_invalid src dst amount h Hle). exists a, b. auto. }
  destruct (result_of (withdraw amount a)) as [[]|e] eqn:Hw.
  2: { rewrite (transfer_raises src dst amount h a e) by (auto; lia).
       exists a, b. auto. }
  destruct (transfer_returns src dst amount h a) as (h' & Hp);
    [lia | exact Ha | eauto | exact Hw|].
  rewrite Hp. unfold state_of; simpl.
  apply transfer_Return in Hp
    as (a0 & a1 & b0 & b1 & c & c1 & d & d1 & Hpos & Ha0 & Hwa & Hb0 & Hd & Hc & Hac
        & Hd' & Had & -> & _).
  rewrite Ha in Ha0. injection Ha0 as <-.
  rewrite lookup_insert_ne, Hb in Hb0 by exact Hne. injection Hb0 as <-.
  rewrite lookup_insert_ne, lookup_insert_eq in Hc by auto. injection Hc as <-.
  rewrite lookup_insert_ne, lookup_insert_eq in Hd' by auto. injection Hd' as <-.
  destruct (withdraw_outcome _ _ _ _ _ Hwa) as [_ [(e & ? & _)|(_ & _ & _ & Hwb & _)]];
    [discriminate|].
  destruct (deposit_outcome _ _ _ _ _ Hd) as [_ [(? & _)|(_ & _ & Hdb & _)]];
    [discriminate|].
  destruct (add_transaction_outcome _ _ _ _ _ Hac) as (_ & _ & Hcb & _).
  destruct (add_transaction_outcome _ _ _ _ _ Had) as (_ & _ & Hdb' & _).
  exists c1, d1.
  rewrite lookup_insert_ne, lookup_insert_eq, lookup_insert_eq by auto.
  repeat split. lia.
Qed.

Lemma transfer_conserves_money_witness :
  exists a' b',
    state_of (process_transaction (TransferTransaction acc1 acc2 1000) main_store)
      !! acc1 = Some a'
    /\ state_of (process_transaction (TransferTransaction acc1 acc2 1000) main_store)
        !! acc2 = Some b'
    /\ balance a' + balance b'
       = balance (a_saving (SavingAccount_init 1 5000 "pass1" "Ane" 1000))
         + balance (a_expenses (ExpensesAccount_init 2 3000 "pass2" "Esther" 2000)).
Proof.
  apply (transfer_conserves_money main_store acc1 acc2 1000);
    [discriminate | reflexivity | reflexivity].
Defined.

(** ** Further properties of the budget manager *)

Lemma limit_was_set_snoc (category : string) (calls : list call) (c : call) :
  limit_was_set category (calls ++ [c])
  = limit_was_set category calls || sets_limit_of category c.
Proof.
  unfold limit_was_set. rewrite existsb_app. simpl. rewrite orb_false_r. reflexivity.
Qed.

Lemma sum_since_last_limit_snoc (category : string) (calls : list call) (c : call) :
  sum_since_last_limit category (calls ++ [c]) =
    match c with
    | call_set_budget_limit category' _ =>
        if bool_decide (category' = category) then 0
        else sum_since_last_limit category calls
    | call_add_expense category' amount =>
        if bool_decide (category' = category)
        then sum_since_last_limit category calls + amount
        else sum_since_last_limit category calls
    end.
Proof. unfold sum_since_last_limit. rewrite fold_left_app. reflexivity. Qed.

Lemma last_limit_snoc (category : string) (calls : list call) (c : call) :
  last_limit category (calls ++ [c]) =
    match c with
    | call_set_budget_limit category' limit =>
        if bool_decide (category' = category) then Some limit
        else last_limit category calls
    | call_add_expense _ _ => last_limit category calls
    end.
Proof. unfold last_limit. rewrite fold_left_app. reflexivity. Qed.

(** X19: after any sequence of calls on a fresh manager,
    [get_budget_status] reports for a category whose limit was set the sum
    of the amounts added to it since its limit was last set, and no entry
    for a category whose limit was never set; the limit in force is the one
    set last.  The report changes nothing and prints nothing. *)
Theorem budget_status_is_sum_since_last_limit (calls : list call) (category : string) :
  exists status,
    get_budget_status (after calls BudgetManager_init)
    = (after calls BudgetManager_init, [], Return status)
    /\ status !! category
       = (if limit_was_set category calls
          then Some (sum_since_last_limit category calls) else None)
    /\ _category_limits (after calls BudgetManager_init) !! category
       = last_limit category calls.
Proof.
  exists (_spending (after calls BudgetManager_init)).
  split; [reflexivity|].
  induction calls as [|c calls [IHs IHl]] using rev_ind.
  - split; reflexivity.
  - rewrite after_snoc, spending_perform, limits_perform, limit_was_set_snoc,
      sum_since_last_limit_snoc, last_limit_snoc.
    set (bm := after calls BudgetManager_init) in *.
    destruct c as [c0 l0|c0 a0]; simpl.
    + destruct (bool_decide_reflect (c0 = category)) as [->|Hne].
      * rewrite !lookup_insert_eq, orb_true_r. split; reflexivity.
      * rewrite !lookup_insert_ne, orb_false_r by exact Hne. split; assumption.
    + rewrite orb_false_r. split; [|exact IHl].
      destruct (_spending bm !! c0) as [v|] eqn:Hv.
      * destruct (bool_decide_reflect (c0 = category)) as [->|Hne].
        -- rewrite lookup_insert_eq. rewrite Hv in IHs.
           destruct (limit_was_set category calls); [|discriminate].
           injection IHs as ->. reflexivity.
        -- rewrite lookup_insert_ne by exact Hne. exact IHs.
      * destruct (bool_decide_reflect (c0 = category)) as [->|Hne]; [|exact IHs].
        rewrite Hv in IHs. rewrite Hv.
        destruct (limit_was_set category calls); [discriminate IHs | reflexivity].
Qed.

(** X20: on a manager in a reachable state, two expenses on the same
    category leave the same state as one expense of their sum (only the
    warnings printed can differ). *)
Theorem add_expense_adds_up (bm : BudgetManager) (category : string) (a b : Z) :
  reachable bm ->
  state_of ((add_expense category a;; add_expense category b) bm)
  = state_of (add_expense category (a + b) bm).
Proof.
  intros Hr. apply same_keys_reachable in Hr.
  unfold mbind, Py_bind. rewrite !add_expense_eq.
  destruct (_spending bm !! category) as [v|] eqn:Hv; [|reflexivity].
  assert (Hl : exists limit, _category_limits bm !! category = Some limit).
  { apply (elem_of_dom_2 (_spending bm)) in Hv. rewrite Hr in Hv.
    apply elem_of_dom in Hv as [limit Hl]. eauto. }
  destruct Hl as [limit Hl]. rewrite Hl. simpl.
  rewrite add_expense_eq. simpl. rewrite lookup_insert_eq, Hl.
  unfold state_of, set_spending. simpl.
  rewrite insert_insert_eq, Z.add_assoc. reflexivity.
Qed.

Lemma add_expense_adds_up_witness :
  state_of ((add_expense "Food" 1200;; add_expense "Food" 900)
              (after [call_set_budget_limit "Food" 2000] BudgetManager_init))
  = state_of (add_expense "Food" (1200 + 900)
                (after [call_set_budget_limit "Food" 2000] BudgetManager_init)).
Proof.
  apply (add_expense_adds_up
           (after [call_set_budget_limit "Food" 2000] BudgetManager_init) "Food").
  exists [call_set_budget_limit "Food" 2000]. reflexivity.
Defined.

(** X21: on any manager, [set_budget_limit(category, limit)] makes the
    category known with a counter at 0, whatever was there before: a
    following [add_expense(category, amount)] returns, leaves the counter
    at exactly [amount], and prints the warning exactly when
    [amount > limit].  Setting a limit twice is the same as setting the
    second limit alone. *)
Theorem set_budget_limit_starts_afresh
    (bm : BudgetManager) (category : string) (limit limit' amount : Z) :
  (exists bm',
     (set_budget_limit category limit;; add_expense category amount) bm
     = (bm', (if amount >? limit then [warning category] else []), Return tt)
     /\ spent bm' category = Some amount
     /\ _category_limits bm' !! category = Some limit)
  /\ (set_budget_limit category limit';; set_budget_limit category limit) bm
     = set_budget_limit category limit bm.
Proof.
  split.
  - eexists. unfold mbind, Py_bind. rewrite set_budget_limit_eq, add_expense_eq.
    simpl. rewrite !lookup_insert_eq. simpl. split; [reflexivity|].
    unfold spent. simpl. rewrite !lookup_insert_eq. auto.
  - unfold mbind, Py_bind. rewrite !set_budget_limit_eq. simpl.
    rewrite !insert_insert_eq. reflexivity.
Qed.
